(** * Eco habits bot: check-in store, aggregation and reminder dispatch

    A shallow embedding of [bot.py].  The SQLite database behind the bot is
    modelled as a record of two tables, each a list of rows in the order a
    table scan yields them; every function of the bot that opens the database
    becomes a function that takes the database value (and returns the new one
    when it writes).  The chat transport is modelled by the list of actions a
    handler requests. *)

From Stdlib Require Import ZArith List Bool String Ascii Lia Permutation.
From Stdlib Require Import Sorting.Sorted DecimalString.
Import ListNotations.

Open Scope string_scope.
Open Scope Z_scope.

(** ** Settings *)

(** [CLASSES]: the classes of the first release. *)
Definition CLASSES : list string := ["6В"; "6Г"].

(** [HABITS]: the daily habits as (key, label). *)
Definition HABITS : list (string * string) :=
  [ ("water_teeth", "🚰 Выключаю воду при чистке зубов");
    ("lights_off", "💡 Выключаю свет, выходя из комнаты");
    ("no_cup", "🥤 Не пью из одноразового стаканчика");
    ("no_bag", "🛍️ Не использую пластиковый пакет");
    ("trash_place", "🗑️ Мусор - в отведённые места");
    ("eco_move", "🚶 Пешком/экологичный транспорт") ].

(** ** Python values *)

(** Truth value of a [str | None]: [None] and the empty string are false. *)
Definition truthy (v : option string) : bool :=
  match v with
  | Some s => negb (s =? "")%string
  | None => false
  end.

(** [x in xs] on a list or a set of strings. *)
Definition str_in (x : string) (xs : list string) : bool :=
  existsb (String.eqb x) xs.

(** [str(n)] for a count. *)
Definition str_of_nat (n : nat) : string :=
  NilZero.string_of_uint (Nat.to_uint n).

(** [sep.join(parts)]. *)
Definition join (sep : string) (parts : list string) : string :=
  String.concat sep parts.

Definition newline : string := String "010" EmptyString.

(** [s.split(":", 1)], for a string that is then unpacked into two names:
    the text before the first colon and the text after it; [None] when there
    is no colon (the unpacking raises). *)
Fixpoint split_colon (s : string) : option (string * string) :=
  match s with
  | EmptyString => None
  | String c rest =>
      if Ascii.eqb c ":" then Some (EmptyString, rest)
      else match split_colon rest with
           | Some (a, b) => Some (String c a, b)
           | None => None
           end
  end.

(** [s.split(":", 2)] unpacked into three names. *)
Definition split_colon2 (s : string) : option (string * string * string) :=
  match split_colon s with
  | Some (a, rest) =>
      match split_colon rest with
      | Some (b, c) => Some (a, b, c)
      | None => None
      end
  | None => None
  end.

(** [xs[:limit]] *)
Definition slice_to {A : Type} (xs : list A) (limit : Z) : list A :=
  if limit <? 0
  then firstn (Nat.sub (List.length xs) (Z.to_nat (- limit))) xs
  else firstn (Z.to_nat limit) xs.

(** ** The database *)

(** A row of table [users]. *)
Record user_row : Type := mk_user {
  user_id : Z;
  username : option string;
  first_name : option string;
  class_name : option string;
  joined_at : string
}.

(** A row of table [checkins]; the three columns are its primary key. *)
Record checkin_row : Type := mk_checkin {
  ck_user : Z;
  ck_day : string;
  ck_habit : string
}.

Record database : Type := mk_db {
  users : list user_row;
  checkins : list checkin_row
}.

(** [init_db] on a fresh file. *)
Definition init_db : database := mk_db [] [].

Definition checkin_eqb (a b : checkin_row) : bool :=
  (ck_user a =? ck_user b) && (ck_day a =? ck_day b)%string
  && (ck_habit a =? ck_habit b)%string.

Definition has_user (uid : Z) (us : list user_row) : bool :=
  existsb (fun r => user_id r =? uid) us.

(** A new row of [users] goes to its place in key order: [user_id] is the
    integer primary key, and a scan of the table follows it. *)
Fixpoint insert_user (r : user_row) (us : list user_row) : list user_row :=
  match us with
  | [] => [r]
  | x :: rest =>
      if user_id r <? user_id x then r :: us else x :: insert_user r rest
  end.

Definition rename_user (uid : Z) (uname fname : option string) (r : user_row)
  : user_row :=
  if user_id r =? uid
  then mk_user (user_id r) uname fname (class_name r) (joined_at r)
  else r.

(** [upsert_user]; [now] is [datetime.now().isoformat()]. *)
Definition upsert_user (now : string) (uid : Z) (uname fname : option string)
    (db : database) : database :=
  if has_user uid (users db)
  then mk_db (map (rename_user uid uname fname) (users db)) (checkins db)
  else mk_db (insert_user (mk_user uid uname fname None now) (users db))
             (checkins db).

Definition reclass_user (uid : Z) (cls : string) (r : user_row) : user_row :=
  if user_id r =? uid
  then mk_user (user_id r) (username r) (first_name r) (Some cls) (joined_at r)
  else r.

Definition set_user_class (uid : Z) (cls : string) (db : database) : database :=
  mk_db (map (reclass_user uid cls) (users db)) (checkins db).

Definition get_user_class (uid : Z) (db : database) : option string :=
  match find (fun r => user_id r =? uid) (users db) with
  | Some row => class_name row
  | None => None
  end.

Definition get_all_users (db : database) : list Z :=
  map user_id (users db).

Definition class_is (cls : string) (r : user_row) : bool :=
  match class_name r with
  | Some c => (c =? cls)%string
  | None => false
  end.

Definition get_class_users (cls : string) (db : database) : list Z :=
  map user_id (filter (class_is cls) (users db)).

(** [set_habit]: INSERT OR IGNORE when [enabled], DELETE otherwise. *)
Definition set_habit (uid : Z) (day key : string) (enabled : bool)
    (db : database) : database :=
  let row := mk_checkin uid day key in
  if enabled
  then if existsb (checkin_eqb row) (checkins db)
       then db
       else mk_db (users db) (checkins db ++ [row])
  else mk_db (users db)
             (filter (fun r => negb (checkin_eqb r row)) (checkins db)).

(** [get_user_day_habits]: a Python set, here a list without repetition. *)
Definition get_user_day_habits (uid : Z) (day : string) (db : database)
  : list string :=
  nodup string_dec
    (map ck_habit
       (filter (fun r => (ck_user r =? uid) && (ck_day r =? day)%string)
          (checkins db))).

(** ** GROUP BY and ORDER BY

    [GROUP BY k] with [COUNT( * )] yields one row per distinct key with the
    number of selected rows that carry it; SQLite produces the groups in
    ascending key order (NULL first).  [ORDER BY c DESC] then sorts them by
    count.  SQL leaves the order of rows with equal counts to the store;
    SQLite's sorter returns them in the reverse of the order they were
    produced in, and so does [order_by_count_desc]. *)
Section GroupBy.
Context {K : Type}.
Variable K_dec : forall a b : K, {a = b} + {a <> b}.
Variable K_leb : K -> K -> bool.

Fixpoint insert_key (k : K) (ks : list K) : list K :=
  match ks with
  | [] => [k]
  | x :: rest => if K_leb k x then k :: ks else x :: insert_key k rest
  end.

Definition sort_keys (ks : list K) : list K :=
  fold_right insert_key [] ks.

Definition group_count (keys : list K) : list (K * nat) :=
  map (fun k => (k, count_occ K_dec keys k)) (sort_keys (nodup K_dec keys)).

Fixpoint insert_desc (r : K * nat) (rows : list (K * nat))
  : list (K * nat) :=
  match rows with
  | [] => [r]
  | x :: rest =>
      if (snd x <? snd r)%nat then r :: rows else x :: insert_desc r rest
  end.

Definition order_by_count_desc (rows : list (K * nat)) : list (K * nat) :=
  fold_right insert_desc [] rows.
End GroupBy.

(** Ordering of a nullable text column: NULL sorts before every string. *)
Definition opt_str_leb (a b : option string) : bool :=
  match a, b with
  | None, _ => true
  | Some _, None => false
  | Some x, Some y => String.leb x y
  end.

Definition opt_str_dec (a b : option string) : {a = b} + {a <> b}.
Proof. decide equality; apply string_dec. Defined.

(** The rows of [SELECT habit_key, COUNT( * ) ... GROUP BY habit_key
    ORDER BY c DESC] over the selected check-ins. *)
Definition by_habit_of (rows : list checkin_row) : list (string * nat) :=
  order_by_count_desc (group_count string_dec String.leb (map ck_habit rows)).

(** [COUNT(DISTINCT day)] over the selected check-ins. *)
Definition distinct_days (rows : list checkin_row) : nat :=
  List.length (nodup string_dec (map ck_day rows)).

Definition get_user_stats (uid : Z) (db : database)
  : nat * nat * list (string * nat) :=
  let mine := filter (fun r => ck_user r =? uid) (checkins db) in
  (List.length mine, distinct_days mine, by_habit_of mine).

(** The two [where_sql] texts the bot passes to [get_group_stats]. *)
Inductive where_sql : Type :=
| NoWhere
| WhereClass (cls : string).

Definition where_holds (w : where_sql) (u : user_row) : bool :=
  match w with
  | NoWhere => true
  | WhereClass cls => class_is cls u
  end.

(** [checkins JOIN users ON users.user_id = checkins.user_id]. *)
Definition join_users (db : database) : list (checkin_row * user_row) :=
  flat_map
    (fun c => map (fun u => (c, u))
                (filter (fun u => user_id u =? ck_user c) (users db)))
    (checkins db).

Definition joined_where (w : where_sql) (db : database) : list checkin_row :=
  map fst (filter (fun cu => where_holds w (snd cu)) (join_users db)).

Definition get_group_stats (w : where_sql) (db : database)
  : nat * nat * nat * list (string * nat) :=
  let users_count := List.length (filter (where_holds w) (users db)) in
  let marks := joined_where w db in
  (users_count, List.length marks, distinct_days marks, by_habit_of marks).

(** ** Calendar

    [datetime.date] as the bot uses it: the clock is read as the proleptic
    Gregorian ordinal of [date.today()] (day 1 is 0001-01-01);
    [ord_to_ymd] follows the library's conversion. *)
Module Calendar.

Record date : Type := mk_date { year : Z; month : Z; day : Z }.

Definition DI400Y : Z := 146097.
Definition DI100Y : Z := 36524.
Definition DI4Y : Z := 1461.
Definition MAXORDINAL : Z := 3652059.

Definition days_before_month (m : Z) : Z :=
  nth (Z.to_nat m) [-1; 0; 31; 59; 90; 120; 151; 181; 212; 243; 273; 304; 334]
    (-1).

Definition is_leap (y : Z) : bool :=
  (y mod 4 =? 0) && (negb (y mod 100 =? 0) || (y mod 400 =? 0)).

Definition days_in_month (y m : Z) : Z :=
  if (m =? 2) && is_leap y then 29
  else nth (Z.to_nat m) [-1; 31; 28; 31; 30; 31; 30; 31; 31; 30; 31; 30; 31]
         (-1).

Definition ord_to_ymd (ordinal : Z) : date :=
  let n := ordinal - 1 in
  let n400 := n / DI400Y in
  let n := n mod DI400Y in
  let n100 := n / DI100Y in
  let n := n mod DI100Y in
  let n4 := n / DI4Y in
  let n := n mod DI4Y in
  let n1 := n / 365 in
  let n := n mod 365 in
  let y := n400 * 400 + 1 + n100 * 100 + n4 * 4 + n1 in
  if (n1 =? 4) || (n100 =? 4) then mk_date (y - 1) 12 31
  else
    let leapyear := (n1 =? 3) && (negb (n4 =? 24) || (n100 =? 3)) in
    let m := Z.shiftr (n + 50) 5 in
    let preceding :=
      days_before_month m + (if (2 <? m) && leapyear then 1 else 0) in
    if n <? preceding
    then mk_date y (m - 1) (n - (preceding - days_in_month y (m - 1)) + 1)
    else mk_date y m (n - preceding + 1).

(** [date.fromordinal]: raises outside [1 .. date.max.toordinal()]. *)
Definition fromordinal (n : Z) : option date :=
  if (1 <=? n) && (n <=? MAXORDINAL) then Some (ord_to_ymd n) else None.

(** ["%0*d"] for a non-negative number. *)
Definition zero_pad (width : nat) (n : Z) : string :=
  let digits := str_of_nat (Z.to_nat n) in
  let missing := Nat.sub width (String.length digits) in
  String.concat "" (repeat "0" missing) ++ digits.

(** [d.isoformat()]: ["%04d-%02d-%02d"]. *)
Definition isoformat (d : date) : string :=
  zero_pad 4 (year d) ++ "-" ++ zero_pad 2 (month d) ++ "-"
    ++ zero_pad 2 (day d).

(** The text of the day with ordinal [n]. *)
Definition iso_of_ordinal (n : Z) : string := isoformat (ord_to_ymd n).

End Calendar.

Fixpoint all_some {A : Type} (xs : list (option A)) : option (list A) :=
  match xs with
  | [] => Some []
  | None :: _ => None
  | Some x :: rest =>
      match all_some rest with
      | Some ys => Some (x :: ys)
      | None => None
      end
  end.

(** [range(n)] *)
Definition range (n : nat) : list Z := map Z.of_nat (seq 0 n).

(** [days_list] of [send_school_stats]; [today] is [date.today().toordinal()].
    [None] when [date.fromordinal] raises. *)
Definition days_list (today : Z) : option (list string) :=
  let from_day := today - 6 in
  all_some
    (map (fun i => option_map Calendar.isoformat
                     (Calendar.fromordinal (from_day + i)))
       (range 7)).

(** [date.today().isoformat()] *)
Definition today_str (today : Z) : string := Calendar.iso_of_ordinal today.

(** ** Keyboards and transport actions *)

Record button : Type := mk_button { btn_text : string; callback_data : string }.

Inductive markup : Type :=
| ReplyKeyboard (keyboard : list (list string))
| InlineKeyboard (inline_keyboard : list (list button)).

(** What a handler asks of the transport. *)
Inductive action : Type :=
| Answer (text : string) (markdown : bool) (reply_markup : markup)
| CbAnswer (text : string)
| EditReplyMarkup (reply_markup : markup)
| SendMessage (chat_id : Z) (text : string) (reply_markup : markup)
| LogWarning (uid : Z) (err : string).

Definition main_menu_kb : markup :=
  ReplyKeyboard
    [ ["✅ Отметить сегодня"];
      ["📊 Моя статистика"; "🙋 Статистика класса"];
      ["🏫 Статистика школы"] ].

Definition class_pick_kb : markup :=
  InlineKeyboard [ map (fun c => mk_button c ("class:" ++ c)) CLASSES ].

Definition habits_kb (uid : Z) (day_str : string) (db : database) : markup :=
  let selected := get_user_day_habits uid day_str db in
  InlineKeyboard
    (map (fun kl =>
            let mark := if str_in (fst kl) selected then "✅ " else "☐ " in
            [ mk_button (mark ++ snd kl)
                ("toggle:" ++ day_str ++ ":" ++ fst kl) ])
         HABITS
     ++ [ [ mk_button "📌 Готово" ("done:" ++ day_str) ] ]).

(** ** Formatting *)

Fixpoint label_in (key : string) (habits : list (string * string)) : string :=
  match habits with
  | [] => key
  | (k, lbl) :: rest => if (k =? key)%string then lbl else label_in key rest
  end.

Definition habit_label (key : string) : string := label_in key HABITS.

Definition no_habit_data : string := "Пока нет данных.".

(** The lines [format_top_habits] collects before joining them. *)
Definition top_habit_lines (by_habit : list (string * nat)) (limit : Z)
  : list string :=
  map (fun kc => habit_label (fst kc) ++ " — " ++ str_of_nat (snd kc))
    (slice_to by_habit limit).

Definition format_top_habits (by_habit : list (string * nat)) (limit : Z)
  : string :=
  match by_habit with
  | [] => no_habit_data
  | _ :: _ => join newline (top_habit_lines by_habit limit)
  end.

(** ** Handlers

    A handler takes the database and returns the database it leaves and the
    actions it requested, in order; [None] stands for an uncaught exception
    before any write. *)

(** The sender of an update: [from_user.id], [.username], [.first_name]. *)
Record from_user : Type := mk_from {
  from_id : Z;
  from_username : option string;
  from_first_name : option string
}.

Definition unknown_class_text : string := "Такого класса нет в первом релизе.".

(** [cb_setclass], the handler of callbacks whose data starts with
    ["class:"]. *)
Definition cb_setclass (now : string) (who : from_user) (data : string)
    (db : database) : option (database * list action) :=
  match split_colon data with
  | None => None
  | Some (_, cls) =>
      if negb (str_in cls CLASSES)
      then Some (db, [CbAnswer unknown_class_text])
      else
        let db1 :=
          upsert_user now (from_id who) (from_username who)
            (from_first_name who) db in
        let db2 := set_user_class (from_id who) cls db1 in
        Some (db2,
              [ CbAnswer "Класс сохранён!";
                Answer ("Готово ✅ Ваш класс: " ++ cls ++ newline
                        ++ "Теперь можно отмечать привычки.")
                  false main_menu_kb ])
  end.

(** The read-modify-write of [cb_toggle]: the database it leaves and
    [new_state]. *)
Definition toggle_habit (uid : Z) (day_str key : string) (db : database)
  : database * bool :=
  let selected := get_user_day_habits uid day_str db in
  let new_state := negb (str_in key selected) in
  (set_habit uid day_str key new_state db, new_state).

(** [cb_toggle], the handler of callbacks whose data starts with
    ["toggle:"]. *)
Definition cb_toggle (who : from_user) (data : string) (db : database)
  : option (database * list action) :=
  match split_colon2 data with
  | None => None
  | Some (_, day_str, key) =>
      let uid := from_id who in
      let (db', new_state) := toggle_habit uid day_str key db in
      Some (db',
            [ EditReplyMarkup (habits_kb uid day_str db');
              CbAnswer (if new_state then "Отмечено ✅" else "Снято ⛔") ])
  end.

Definition send_my_stats (who : from_user) (db : database) : list action :=
  let '(total, days, by_habit) := get_user_stats (from_id who) db in
  [ Answer ("📊 *Моя статистика*" ++ newline
            ++ "Активных дней: *" ++ str_of_nat days ++ "*" ++ newline
            ++ "Всего отметок: *" ++ str_of_nat total ++ "*" ++ newline
            ++ newline
            ++ "Топ привычек:" ++ newline
            ++ format_top_habits by_habit 3)
      true main_menu_kb ].

Definition send_class_stats (who : from_user) (db : database) : list action :=
  match get_user_class (from_id who) db with
  | Some cls =>
      if truthy (Some cls)
      then
        let '(users_count, total_actions, days_count, by_habit) :=
          get_group_stats (WhereClass cls) db in
        [ Answer ("🙋 *Статистика класса*" ++ newline
                  ++ "Класс: *" ++ cls ++ "*" ++ newline
                  ++ "Участников: *" ++ str_of_nat users_count ++ "*" ++ newline
                  ++ "Активных дней (суммарно): *" ++ str_of_nat days_count
                  ++ "*" ++ newline
                  ++ "Всего эко-действий: *" ++ str_of_nat total_actions
                  ++ "*" ++ newline ++ newline
                  ++ "Топ привычек:" ++ newline
                  ++ format_top_habits by_habit 3)
            true main_menu_kb ]
      else [ Answer "Сначала выберите класс:" false class_pick_kb ]
  | None => [ Answer "Сначала выберите класс:" false class_pick_kb ]
  end.

(** The query of [send_school_stats]: check-ins of the listed days, joined
    with their users, counted per class. *)
Definition most_active_rows (days : list string) (db : database)
  : list (option string * nat) :=
  let marks :=
    filter (fun cu => str_in (ck_day (fst cu)) days) (join_users db) in
  order_by_count_desc
    (group_count opt_str_dec opt_str_leb
       (map (fun cu => class_name (snd cu)) marks)).

Definition no_week_data : string := "Нет данных за последние 7 дней.".

Definition top_class_line (rows : list (option string * nat)) : string :=
  match rows with
  | (Some cls, c) :: _ =>
      if truthy (Some cls)
      then "Самый активный класс за 7 дней: *" ++ cls ++ "* (отметок: *"
           ++ str_of_nat c ++ "*)"
      else no_week_data
  | _ => no_week_data
  end.

Definition school_text (users_count total_actions days_count : nat)
    (line : string) (by_habit : list (string * nat)) : string :=
  "🏫 *Статистика школы*" ++ newline
  ++ "Участников: *" ++ str_of_nat users_count ++ "*" ++ newline
  ++ "Активных дней (суммарно): *" ++ str_of_nat days_count ++ "*" ++ newline
  ++ "Всего эко-действий: *" ++ str_of_nat total_actions ++ "*" ++ newline
  ++ line ++ newline ++ newline
  ++ "Топ привычек:" ++ newline
  ++ format_top_habits by_habit 3.

(** [send_school_stats]; [today] is [date.today().toordinal()]. *)
Definition send_school_stats (today : Z) (db : database)
  : option (list action) :=
  let '(users_count, total_actions, days_count, by_habit) :=
    get_group_stats NoWhere db in
  match days_list today with
  | None => None
  | Some days =>
      let rows := most_active_rows days db in
      Some [ Answer (school_text users_count total_actions days_count
                       (top_class_line rows) by_habit)
               true main_menu_kb ]
  end.

(** ** The evening reminder *)

Definition class_prompt_text : string := "Выберите класс для участия:".

Definition checkin_prompt_text (day_str : string) : string :=
  "Вечерний эко-чек-ин 🌙" ++ newline
  ++ "Отметьте действия за сегодня (" ++ day_str ++ "):".

Section EveningPing.
(** [bot.send_message]: [None] when the message went out, [Some e] when the
    call raised [e]. *)
Variable send_message : Z -> string -> markup -> option string.

(** A send inside the [try]: the request, then the warning when it raised. *)
Definition try_send (uid : Z) (text : string) (kb : markup) : list action :=
  SendMessage uid text kb
  :: match send_message uid text kb with
     | Some e => [LogWarning uid e]
     | None => []
     end.

(** The body of the loop of [evening_ping]. *)
Definition ping_user (day_str : string) (db : database) (uid : Z)
  : list action :=
  let cls := get_user_class uid db in
  if negb (truthy cls)
  then try_send uid class_prompt_text class_pick_kb
  else try_send uid (checkin_prompt_text day_str) (habits_kb uid day_str db).

(** [evening_ping]; [today] is [date.today().toordinal()]. *)
Definition evening_ping (today : Z) (db : database) : list action :=
  let day_str := today_str today in
  let users := get_all_users db in
  flat_map (ping_user day_str db) users.
End EveningPing.

(** ** Commands, menu buttons and the dispatcher *)

Definition upsert_sender (now : string) (who : from_user) (db : database)
  : database :=
  upsert_user now (from_id who) (from_username who) (from_first_name who) db.

Definition start_new_text : string :=
  "Привет! Я бот трекера эко-привычек 🌿" ++ newline ++ newline
  ++ "Сначала выберите Ваш класс (это нужно для статистики класса и школы).".

Definition start_known_text : string :=
  "Привет! Вы уже подключены 🌿" ++ newline
  ++ "Нажмите «✅ Отметить сегодня» или используйте меню.".

(** [cmd_start] *)
Definition cmd_start (now : string) (who : from_user) (db : database)
  : database * list action :=
  let db1 := upsert_sender now who db in
  let user_class := get_user_class (from_id who) db1 in
  if negb (truthy user_class)
  then (db1, [Answer start_new_text false class_pick_kb])
  else (db1, [Answer start_known_text false main_menu_kb]).

(** [cmd_help] *)
Definition cmd_help : list action :=
  [ Answer ("Команды:" ++ newline
            ++ "/start — подключиться" ++ newline
            ++ "/checkin — отметить привычки за сегодня" ++ newline
            ++ "/stats — моя статистика" ++ newline
            ++ "/setclass — поменять класс" ++ newline ++ newline
            ++ "Также можно пользоваться кнопками меню.")
      false main_menu_kb ].

(** [cmd_setclass] *)
Definition cmd_setclass (now : string) (who : from_user) (db : database)
  : database * list action :=
  (upsert_sender now who db, [Answer "Выберите класс:" false class_pick_kb]).

Definition pick_class_first : list action :=
  [Answer "Сначала выберите класс:" false class_pick_kb].

(** [cmd_checkin]; [today] is [date.today().toordinal()]. *)
Definition cmd_checkin (now : string) (today : Z) (who : from_user)
    (db : database) : database * list action :=
  let db1 := upsert_sender now who db in
  if negb (truthy (get_user_class (from_id who) db1))
  then (db1, pick_class_first)
  else
    let day_str := today_str today in
    (db1,
     [ Answer ("Отметьте эко-действия за сегодня (" ++ day_str ++ "):")
         false (habits_kb (from_id who) day_str db1) ]).

(** [cmd_stats] *)
Definition cmd_stats (now : string) (who : from_user) (db : database)
  : database * list action :=
  let db1 := upsert_sender now who db in
  (db1, send_my_stats who db1).

(** [cb_done], the handler of callbacks whose data starts with ["done:"]:
    the calls it makes to the transport, or [None] when unpacking the data
    raises.  Whether those calls return is the transport's part, see
    [perform]. *)
Definition cb_done (who : from_user) (data : string) (db : database)
  : option (list action) :=
  match split_colon data with
  | None => None
  | Some (_, day_str) =>
      let selected := get_user_day_habits (from_id who) day_str db in
      Some [ CbAnswer "Сохранено!";
             Answer ("Спасибо! За " ++ day_str ++ " отмечено привычек: "
                     ++ str_of_nat (List.length selected) ++ " ✅")
               false main_menu_kb ]
  end.

(** What reaches the dispatcher: a command, the text of a menu button, or
    the data of an inline button. *)
Inductive update : Type :=
| Command (name : string)
| Text (text : string)
| Callback (data : string).

(** What the handlers read besides the update: the clock and the sender. *)
Record context : Type := mk_context {
  ctx_now : string;
  ctx_today : Z;
  ctx_from : from_user
}.

(** What a handler does with an update, the transport left aside: the
    database it writes and the calls it makes, an exception raised while
    the data is unpacked (its first statement, before any write), or no
    handler at all. *)
Inductive outcome : Type :=
| Handled (db : database) (acts : list action)
| Raised
| Unhandled.

Definition handled (db : database) (r : database * list action) : outcome :=
  Handled (fst r) (snd r).

Definition handled_opt (r : option (database * list action)) : outcome :=
  match r with
  | Some (db, acts) => Handled db acts
  | None => Raised
  end.

Definition read_only (db : database) (r : option (list action)) : outcome :=
  match r with
  | Some acts => Handled db acts
  | None => Raised
  end.

(** The handlers in the order they are registered; the first whose filter
    accepts the update runs. *)
Definition dispatch (ctx : context) (u : update) (db : database) : outcome :=
  let now := ctx_now ctx in
  let who := ctx_from ctx in
  match u with
  | Command name =>
      if (name =? "start")%string then handled db (cmd_start now who db)
      else if (name =? "help")%string then Handled db cmd_help
      else if (name =? "setclass")%string
      then handled db (cmd_setclass now who db)
      else if (name =? "checkin")%string
      then handled db (cmd_checkin now (ctx_today ctx) who db)
      else if (name =? "stats")%string then handled db (cmd_stats now who db)
      else Unhandled
  | Text t =>
      if (t =? "✅ Отметить сегодня")%string
      then handled db (cmd_checkin now (ctx_today ctx) who db)
      else if (t =? "📊 Моя статистика")%string
      then Handled db (send_my_stats who db)
      else if (t =? "🙋 Статистика класса")%string
      then Handled db (send_class_stats who db)
      else if (t =? "🏫 Статистика школы")%string
      then read_only db (send_school_stats (ctx_today ctx) db)
      else Unhandled
  | Callback data =>
      if String.prefix "class:" data
      then handled_opt (cb_setclass now who data db)
      else if String.prefix "toggle:" data
      then handled_opt (cb_toggle who data db)
      else if String.prefix "done:" data
      then read_only db (cb_done who data db)
      else Unhandled
  end.

(** The database after an update. *)
Definition after (ctx : context) (u : update) (db : database) : database :=
  match dispatch ctx u db with
  | Handled db' _ => db'
  | Raised | Unhandled => db
  end.

(** The database after a sequence of updates, oldest first. *)
Fixpoint run (trace : list (context * update)) (db : database) : database :=
  match trace with
  | [] => db
  | (ctx, u) :: rest => run rest (after ctx u db)
  end.

(** ** Well-formed databases

    The primary keys: no two rows of [users] share a [user_id], no two rows
    of [checkins] are equal. *)

Fixpoint unique_ids (us : list user_row) : bool :=
  match us with
  | [] => true
  | x :: rest => negb (has_user (user_id x) rest) && unique_ids rest
  end.

Fixpoint unique_marks (cs : list checkin_row) : bool :=
  match cs with
  | [] => true
  | x :: rest => negb (existsb (checkin_eqb x) rest) && unique_marks rest
  end.

Definition db_ok (db : database) : bool :=
  unique_ids (users db) && unique_marks (checkins db).

(** Whether the mark (uid, day, key) is stored. *)
Definition has_mark (uid : Z) (day key : string) (db : database) : bool :=
  existsb (checkin_eqb (mk_checkin uid day key)) (checkins db).

(** A user whose class is unset. *)
Definition ungrouped (u : user_row) : bool := negb (truthy (class_name u)).

(** ** Notions used in the statements *)

(** A small database: two users of class 6В, one of 6Г and one who has not
    chosen a class, with marks on two days of May 2024. *)
Definition sample_db : database :=
  mk_db
    [ mk_user 1 (Some "ann") (Some "Ann") (Some "6В") "2024-04-30T18:00:00";
      mk_user 2 None (Some "Boris") (Some "6Г") "2024-04-30T18:05:00";
      mk_user 3 (Some "vera") (Some "Vera") None "2024-05-01T08:00:00";
      mk_user 4 None (Some "Gleb") (Some "6В") "2024-05-01T09:00:00" ]
    [ mk_checkin 1 "2024-05-01" "lights_off";
      mk_checkin 1 "2024-05-01" "no_cup";
      mk_checkin 2 "2024-05-01" "no_cup";
      mk_checkin 3 "2024-05-01" "no_cup";
      mk_checkin 3 "2024-05-02" "eco_move";
      mk_checkin 3 "2024-05-02" "no_bag";
      mk_checkin 3 "2024-05-02" "trash_place";
      mk_checkin 4 "2024-05-02" "lights_off";
      mk_checkin 1 "2024-05-02" "water_teeth" ].

(** Rows in the order [ORDER BY c DESC] asks for: no count below a later
    one. *)
Definition count_ge {K : Type} (a b : K * nat) : Prop := (snd b <= snd a)%nat.





(** The row of [users] a check-in belongs to, when there is one. *)
Definition owner (db : database) (c : checkin_row) : option user_row :=
  find (fun u => user_id u =? ck_user c) (users db).

(** Each check-in that has an owner, paired with it. *)
Definition pairs_of (own : checkin_row -> option user_row)
    (cs : list checkin_row) : list (checkin_row * user_row) :=
  flat_map (fun c => match own c with
                     | Some u => [(c, u)]
                     | None => []
                     end) cs.

(** The check-ins of registered users whose owner satisfies [w]. *)
Definition marks_where (w : where_sql) (db : database) : list checkin_row :=
  filter (fun c => match owner db c with
                   | Some u => where_holds w u
                   | None => false
                   end)
    (checkins db).

(** The check-ins of all registered users. *)
Definition registered_marks (db : database) : list checkin_row :=
  filter (fun c => has_user (ck_user c) (users db)) (checkins db).




(** The message a reminder run owes the user [uid]. *)
Definition prompt_for (day_str : string) (db : database) (uid : Z) : action :=
  if truthy (get_user_class uid db)
  then SendMessage uid (checkin_prompt_text day_str)
         (habits_kb uid day_str db)
  else SendMessage uid class_prompt_text class_pick_kb.

(** The class column of the rows the query of [send_school_stats] groups. *)
Definition window_classes (days : list string) (db : database)
  : list (option string) :=
  map (fun cu => class_name (snd cu))
    (filter (fun cu => str_in (ck_day (fst cu)) days) (join_users db)).

Definition same_class (a b : option string) : bool :=
  if opt_str_dec a b then true else false.

(** The check-ins of the listed days whose owner is stored with class [cls]
    ([None]: stored without a class). *)
Definition bucket_marks (days : list string) (db : database)
    (cls : option string) : list checkin_row :=
  filter (fun c => match owner db c with
                   | Some u =>
                       str_in (ck_day c) days && same_class (class_name u) cls
                   | None => false
                   end)
    (checkins db).

(** The answer of [send_school_stats] when its most-active line is [line]. *)
Definition school_answer (db : database) (line : string) : action :=
  let '(users_count, total_actions, days_count, by_habit) :=
    get_group_stats NoWhere db in
  Answer (school_text users_count total_actions days_count line by_habit)
    true main_menu_kb.

(** The seven days that end with the day of ordinal [today]. *)
Definition trailing_week (today : Z) : list Z :=
  [today - 6; today - 5; today - 4; today - 3; today - 2; today - 1; today].

(** A day text as [cb_toggle] can receive it: without a colon. *)
Fixpoint no_colon (s : string) : bool :=
  match s with
  | EmptyString => true
  | String c rest => negb (Ascii.eqb c ":") && no_colon rest
  end.





(** Every stored class is one of [CLASSES]. *)
Definition class_known (u : user_row) : bool :=
  match class_name u with
  | Some c => str_in c CLASSES
  | None => true
  end.

Definition classes_ok (db : database) : bool := forallb class_known (users db).

(** The sum of the counts of the rows of a GROUP BY query. *)
Definition total_count {K : Type} (rows : list (K * nat)) : nat :=
  list_sum (map snd rows).

(** The check-ins of one user on one day. *)
Definition day_marks (uid : Z) (day : string) (db : database)
  : list checkin_row :=
  filter (fun r => (ck_user r =? uid) && (ck_day r =? day)%string)
    (checkins db).


(** The buttons of an inline keyboard. *)
Definition buttons (kb : markup) : list button :=
  match kb with
  | InlineKeyboard rows => List.concat rows
  | ReplyKeyboard _ => []
  end.

(** The warnings of a reminder run. *)
Definition is_warning (a : action) : bool :=
  match a with
  | LogWarning _ _ => true
  | _ => false
  end.

(** * Properties *)

(** ** Rows and membership *)

Lemma checkin_eqb_eq (a b : checkin_row) : checkin_eqb a b = true <-> a = b.
Proof.
  unfold checkin_eqb. destruct a as [u d h], b as [u' d' h']; simpl.
  rewrite !andb_true_iff, Z.eqb_eq, !String.eqb_eq.
  split.
  - intros [[-> ->] ->]. reflexivity.
  - intros E. injection E as -> -> ->. auto.
Qed.

Lemma checkin_eqb_refl (a : checkin_row) : checkin_eqb a a = true.
Proof. now apply checkin_eqb_eq. Qed.

Lemma checkin_eqb_sym (a b : checkin_row) : checkin_eqb a b = checkin_eqb b a.
Proof.
  destruct (checkin_eqb a b) eqn:E, (checkin_eqb b a) eqn:F; trivial.
  - apply checkin_eqb_eq in E. subst. now rewrite checkin_eqb_refl in F.
  - apply checkin_eqb_eq in F. subst. now rewrite checkin_eqb_refl in E.
Qed.

Lemma existsb_checkin_In (row : checkin_row) (cs : list checkin_row) :
  existsb (checkin_eqb row) cs = true <-> In row cs.
Proof.
  rewrite existsb_exists. split.
  - intros [x [Hin Heq]]. apply checkin_eqb_eq in Heq. now subst.
  - intros Hin. exists row. split; [assumption | apply checkin_eqb_refl].
Qed.

Lemma str_in_In (x : string) (xs : list string) :
  str_in x xs = true <-> In x xs.
Proof.
  unfold str_in. rewrite existsb_exists. split.
  - intros [y [Hin Heq]]. apply String.eqb_eq in Heq. now subst.
  - intros Hin. exists x. split; [assumption | apply String.eqb_refl].
Qed.

Lemma bool_eq_iff (a b : bool) : (a = true <-> b = true) -> a = b.
Proof. destruct a, b; intuition congruence. Qed.

(** [key in get_user_day_habits(uid, day)] reads the presence of the mark. *)
Lemma day_habits_has_mark (uid : Z) (day key : string) (db : database) :
  str_in key (get_user_day_habits uid day db) = has_mark uid day key db.
Proof.
  apply bool_eq_iff. unfold get_user_day_habits, has_mark.
  rewrite str_in_In, nodup_In, in_map_iff, existsb_checkin_In. split.
  - intros [r [Hk Hin]]. apply filter_In in Hin as [Hin Hsel].
    apply andb_true_iff in Hsel as [Hu Hd].
    apply Z.eqb_eq in Hu. apply String.eqb_eq in Hd.
    destruct r as [u d h]; simpl in *. now subst.
  - intros Hin. exists (mk_checkin uid day key). split; [reflexivity |].
    apply filter_In. split; [assumption |]. simpl.
    now rewrite Z.eqb_refl, String.eqb_refl.
Qed.

Lemma db_eta (db : database) : mk_db (users db) (checkins db) = db.
Proof. now destruct db. Qed.

Lemma filter_all {A : Type} (f : A -> bool) (l : list A) :
  (forall x, In x l -> f x = true) -> filter f l = l.
Proof.
  induction l as [| a l IH]; simpl; intros H; [reflexivity |].
  rewrite (H a (or_introl eq_refl)). f_equal. apply IH. auto.
Qed.

Lemma filter_twice {A : Type} (f : A -> bool) (l : list A) :
  filter f (filter f l) = filter f l.
Proof.
  apply filter_all. intros x Hx. now apply filter_In in Hx.
Qed.

(** ** set_habit *)

Lemma has_mark_set_habit_same (uid : Z) (day key : string) (b : bool)
    (db : database) :
  has_mark uid day key (set_habit uid day key b db) = b.
Proof.
  unfold has_mark, set_habit. destruct b.
  - destruct (existsb _ (checkins db)) eqn:E; [exact E |].
    simpl. rewrite existsb_app. simpl.
    rewrite checkin_eqb_refl. now rewrite orb_true_r.
  - simpl. destruct (existsb _ (filter _ _)) eqn:E; [| reflexivity].
    apply existsb_checkin_In, filter_In in E as [_ E].
    now rewrite checkin_eqb_refl in E.
Qed.

Lemma set_habit_users (uid : Z) (day key : string) (b : bool) (db : database) :
  users (set_habit uid day key b db) = users db.
Proof.
  unfold set_habit. destruct b; [| reflexivity].
  now destruct (existsb _ _).
Qed.

Lemma set_habit_In (uid : Z) (day key : string) (b : bool) (db : database)
    (r : checkin_row) :
  In r (checkins (set_habit uid day key b db)) <->
  (r = mk_checkin uid day key /\ b = true) \/
  (r <> mk_checkin uid day key /\ In r (checkins db)).
Proof.
  unfold set_habit. destruct b.
  - destruct (existsb _ (checkins db)) eqn:E.
    + apply existsb_checkin_In in E. split.
      * intros H. destruct (checkin_eqb r (mk_checkin uid day key)) eqn:F.
        -- apply checkin_eqb_eq in F. auto.
        -- right. split; [| assumption]. intros ->.
           now rewrite checkin_eqb_refl in F.
      * intros [[-> _] | [_ H]]; assumption.
    + simpl. rewrite in_app_iff. simpl. split.
      * intros [H | [<- | []]]; [| auto].
        right. split; [| assumption]. intros ->.
        apply existsb_checkin_In in H. congruence.
      * intros [[-> _] | [_ H]]; auto.
  - simpl. rewrite filter_In, negb_true_iff. split.
    + intros [H F]. right. split; [| assumption]. intros ->.
      now rewrite checkin_eqb_refl in F.
    + intros [[_ F] | [Hne H]]; [discriminate |]. split; [assumption |].
      destruct (checkin_eqb r _) eqn:F; [| reflexivity].
      now apply checkin_eqb_eq in F.
Qed.

(** C2.  [set_habit] is idempotent for either target state: the second of
    two equal calls leaves the database exactly as the first left it.  The
    operation is a total function of the database, so a redundant call has
    no error to raise. *)
Theorem set_habit_idempotent (uid : Z) (day key : string) (enabled : bool)
    (db : database) :
  set_habit uid day key enabled (set_habit uid day key enabled db)
  = set_habit uid day key enabled db.
Proof.
  destruct enabled.
  - pose proof (has_mark_set_habit_same uid day key true db) as H.
    unfold has_mark in H.
    unfold set_habit at 1. cbv zeta. now rewrite H.
  - unfold set_habit. simpl. now rewrite filter_twice.
Qed.

(** C1.  Toggling the same (user, day, habit) twice in a row: the two calls
    report complementary states, each report is the presence the call left
    behind, the presence of the mark after the second call is the original
    one, and the database holds the same users and the same set of marks as
    before. *)
Theorem toggle_twice_restores (uid : Z) (day key : string) (db : database) :
  let first := toggle_habit uid day key db in
  let second := toggle_habit uid day key (fst first) in
  snd second = negb (snd first) /\
  snd first = negb (has_mark uid day key db) /\
  has_mark uid day key (fst first) = snd first /\
  has_mark uid day key (fst second) = has_mark uid day key db /\
  str_in key (get_user_day_habits uid day (fst second))
  = str_in key (get_user_day_habits uid day db) /\
  users (fst second) = users db /\
  (forall r, In r (checkins (fst second)) <-> In r (checkins db)).
Proof.
  cbv zeta. unfold toggle_habit. simpl.
  rewrite !day_habits_has_mark, !has_mark_set_habit_same, !set_habit_users.
  rewrite negb_involutive.
  repeat split; try reflexivity.
  - intros H. apply set_habit_In in H.
    destruct H as [[-> Hb] | [Hne H]].
    + now apply existsb_checkin_In in Hb.
    + apply set_habit_In in H. destruct H as [[-> _] | [_ H]]; congruence.
  - intros H. apply set_habit_In.
    destruct (checkin_eqb r (mk_checkin uid day key)) eqn:E.
    + apply checkin_eqb_eq in E. subst r. left. split; [reflexivity |].
      apply existsb_checkin_In in H. unfold has_mark. now rewrite H.
    + right. assert (r <> mk_checkin uid day key) as Hne.
      { intros ->. now rewrite checkin_eqb_refl in E. }
      split; [assumption |]. apply set_habit_In. now right.
Qed.

Lemma split_colon_app (a b : string) :
  no_colon a = true -> split_colon (a ++ String ":" b) = Some (a, b).
Proof.
  induction a as [| c a IH]; cbn [append split_colon no_colon];
    [reflexivity |].
  rewrite andb_true_iff, negb_true_iff. intros [Hc Ha].
  now rewrite Hc, IH.
Qed.

(** The callback data of a habit button runs the toggle on its day and key,
    redraws the keyboard from the new marks and reports the new state. *)
Lemma cb_toggle_data (who : from_user) (day key : string) (db : database) :
  no_colon day = true ->
  cb_toggle who ("toggle:" ++ day ++ ":" ++ key) db
  = let r := toggle_habit (from_id who) day key db in
    Some (fst r,
          [ EditReplyMarkup (habits_kb (from_id who) day (fst r));
            CbAnswer (if snd r then "Отмечено ✅" else "Снято ⛔") ]).
Proof.
  intros Hday. unfold cb_toggle, split_colon2.
  change (split_colon ("toggle:" ++ day ++ ":" ++ key))
    with (Some ("toggle", day ++ String ":" key)).
  cbv beta iota. rewrite split_colon_app by assumption.
  now destruct (toggle_habit (from_id who) day key db).
Qed.

(** A user registers, picks class 6В and marks a habit; marking it again
    removes the mark. *)
Example toggle_scenario :
  let who := mk_from 1 (Some "ann") (Some "Ann") in
  let step (r : option (database * list action)) :=
    match r with Some (d, _) => d | None => init_db end in
  let db1 := step (cb_setclass "2024-04-30T18:00:00" who "class:6В" init_db) in
  let db2 := step (cb_toggle who "toggle:2024-05-01:lights_off" db1) in
  let db3 := step (cb_toggle who "toggle:2024-05-01:lights_off" db2) in
  get_user_class 1 db1 = Some "6В" /\
  get_user_day_habits 1 "2024-05-01" db2 = ["lights_off"] /\
  get_user_day_habits 1 "2024-05-01" db3 = [] /\
  db3 = db1.
Proof. repeat split. Qed.

(** ** users *)

Lemma has_user_In (uid : Z) (us : list user_row) :
  has_user uid us = true <-> In uid (map user_id us).
Proof.
  unfold has_user. rewrite existsb_exists, in_map_iff. split.
  - intros [r [Hin E]]. apply Z.eqb_eq in E. now exists r.
  - intros [r [E Hin]]. exists r. split; [assumption | now apply Z.eqb_eq].
Qed.

Lemma unique_ids_NoDup (us : list user_row) :
  unique_ids us = true <-> NoDup (map user_id us).
Proof.
  induction us as [| x us IH]; simpl.
  - split; [constructor | reflexivity].
  - rewrite andb_true_iff, negb_true_iff, NoDup_cons_iff, IH.
    rewrite <- has_user_In.
    destruct (has_user (user_id x) us); intuition congruence.
Qed.

Lemma unique_marks_NoDup (cs : list checkin_row) :
  unique_marks cs = true <-> NoDup cs.
Proof.
  induction cs as [| x cs IH]; simpl.
  - split; [constructor | reflexivity].
  - rewrite andb_true_iff, negb_true_iff, NoDup_cons_iff, IH.
    rewrite <- existsb_checkin_In.
    destruct (existsb (checkin_eqb x) cs); intuition congruence.
Qed.

Lemma insert_user_perm (r : user_row) (us : list user_row) :
  Permutation (insert_user r us) (r :: us).
Proof.
  induction us as [| x us IH]; simpl; [reflexivity |].
  destruct (user_id r <? user_id x); [reflexivity |].
  rewrite IH. apply perm_swap.
Qed.

Lemma rename_user_id (uid : Z) (un fn : option string) (r : user_row) :
  user_id (rename_user uid un fn r) = user_id r.
Proof. unfold rename_user. now destruct (user_id r =? uid). Qed.

Lemma rename_user_class (uid : Z) (un fn : option string) (r : user_row) :
  class_name (rename_user uid un fn r) = class_name r.
Proof. unfold rename_user. now destruct (user_id r =? uid). Qed.

Lemma rename_user_joined (uid : Z) (un fn : option string) (r : user_row) :
  joined_at (rename_user uid un fn r) = joined_at r.
Proof. unfold rename_user. now destruct (user_id r =? uid). Qed.

Lemma reclass_user_id (uid : Z) (cls : string) (r : user_row) :
  user_id (reclass_user uid cls r) = user_id r.
Proof. unfold reclass_user. now destruct (user_id r =? uid). Qed.

Lemma find_map_keeps_id (f : user_row -> user_row) (v : Z)
    (us : list user_row) :
  (forall r, user_id (f r) = user_id r) ->
  find (fun r => user_id r =? v) (map f us)
  = option_map f (find (fun r => user_id r =? v) us).
Proof.
  intros Hid. induction us as [| x us IH]; simpl; [reflexivity |].
  rewrite Hid. now destruct (user_id x =? v).
Qed.

Lemma find_has_user (v : Z) (us : list user_row) :
  has_user v us = false -> find (fun r => user_id r =? v) us = None.
Proof.
  unfold has_user. induction us as [| x us IH]; simpl; [reflexivity |].
  destruct (user_id x =? v); simpl; [discriminate | exact IH].
Qed.

(** The three writes keep the primary keys. *)
Lemma upsert_user_ok (now : string) (uid : Z) (un fn : option string)
    (db : database) :
  db_ok db = true -> db_ok (upsert_user now uid un fn db) = true.
Proof.
  unfold db_ok, upsert_user. rewrite !andb_true_iff. intros [Hu Hc].
  destruct (has_user uid (users db)) eqn:E; simpl; split; trivial.
  - apply unique_ids_NoDup. rewrite map_map.
    rewrite (map_ext _ user_id) by (intros; apply rename_user_id).
    now apply unique_ids_NoDup.
  - apply unique_ids_NoDup.
    apply (Permutation_NoDup
             (l := map user_id (mk_user uid un fn None now :: users db))).
    + apply Permutation_map. symmetry. apply insert_user_perm.
    + simpl. constructor; [| now apply unique_ids_NoDup].
      intros Hin. apply has_user_In in Hin. congruence.
Qed.

Lemma set_user_class_ok (uid : Z) (cls : string) (db : database) :
  db_ok db = true -> db_ok (set_user_class uid cls db) = true.
Proof.
  unfold db_ok, set_user_class. rewrite !andb_true_iff. simpl.
  intros [Hu Hc]. split; trivial.
  apply unique_ids_NoDup. rewrite map_map.
  rewrite (map_ext _ user_id) by (intros; apply reclass_user_id).
  now apply unique_ids_NoDup.
Qed.

Lemma set_habit_ok (uid : Z) (day key : string) (b : bool) (db : database) :
  db_ok db = true -> db_ok (set_habit uid day key b db) = true.
Proof.
  unfold db_ok. rewrite !andb_true_iff, set_habit_users. intros [Hu Hc].
  split; trivial. apply unique_marks_NoDup in Hc. apply unique_marks_NoDup.
  unfold set_habit. destruct b.
  - destruct (existsb _ (checkins db)) eqn:E; [assumption |]. simpl.
    apply (Permutation_NoDup (l := mk_checkin uid day key :: checkins db)).
    + apply Permutation_cons_append.
    + constructor; [| assumption]. intros Hin.
      apply existsb_checkin_In in Hin. congruence.
  - simpl. now apply NoDup_filter.
Qed.

(** Every database the handlers can produce from a fresh one keeps the
    primary keys. *)
Lemma init_db_ok : db_ok init_db = true.
Proof. reflexivity. Qed.

Lemma cb_setclass_ok (now : string) (who : from_user) (data : string)
    (db db' : database) (acts : list action) :
  db_ok db = true ->
  cb_setclass now who data db = Some (db', acts) ->
  db_ok db' = true.
Proof.
  intros Hok. unfold cb_setclass.
  destruct (split_colon data) as [[prefix cls] |]; [| discriminate].
  destruct (negb (str_in cls CLASSES)); intros E; injection E as <- _.
  - exact Hok.
  - now apply set_user_class_ok, upsert_user_ok.
Qed.

Lemma cb_toggle_ok (who : from_user) (data : string) (db db' : database)
    (acts : list action) :
  db_ok db = true ->
  cb_toggle who data db = Some (db', acts) ->
  db_ok db' = true.
Proof.
  intros Hok. unfold cb_toggle, toggle_habit.
  destruct (split_colon2 data) as [[[prefix day] key] |]; [| discriminate].
  intros E. injection E as <- _. now apply set_habit_ok.
Qed.

(** C3.  [upsert_user] on an id that is already stored: every row keeps its
    id, its class and its join time (so the class read back for any user is
    the one stored before), the rows of that id take the new names, the rows
    of other ids and all check-ins are untouched. *)
Theorem upsert_existing_keeps_class_and_join (now : string) (uid : Z)
    (uname fname : option string) (db : database) :
  has_user uid (users db) = true ->
  let db' := upsert_user now uid uname fname db in
  map user_id (users db') = map user_id (users db) /\
  map class_name (users db') = map class_name (users db) /\
  map joined_at (users db') = map joined_at (users db) /\
  (forall v, get_user_class v db' = get_user_class v db) /\
  (forall r, In r (users db') -> user_id r = uid ->
             username r = uname /\ first_name r = fname) /\
  (forall r, user_id r <> uid -> In r (users db') <-> In r (users db)) /\
  checkins db' = checkins db.
Proof.
  intros Hhas. cbv zeta. unfold upsert_user. rewrite Hhas. simpl.
  rewrite !map_map.
  rewrite (map_ext _ user_id) by (intros; apply rename_user_id).
  rewrite (map_ext (fun x => class_name _) class_name)
    by (intros; apply rename_user_class).
  rewrite (map_ext (fun x => joined_at _) joined_at)
    by (intros; apply rename_user_joined).
  repeat split; trivial.
  - intros v. unfold get_user_class. simpl.
    rewrite find_map_keeps_id by (intros; apply rename_user_id).
    destruct (find _ (users db)); simpl; [apply rename_user_class | trivial].
  - apply in_map_iff in H as [r0 [<- _]]. rewrite rename_user_id in H0.
    unfold rename_user. apply Z.eqb_eq in H0. now rewrite H0.
  - apply in_map_iff in H as [r0 [<- _]]. rewrite rename_user_id in H0.
    unfold rename_user. apply Z.eqb_eq in H0. now rewrite H0.
  - intros Hin. apply in_map_iff in Hin as [r0 [E Hin]].
    unfold rename_user in E. destruct (user_id r0 =? uid) eqn:F.
    + apply Z.eqb_eq in F. subst r. simpl in H. congruence.
    + now subst.
  - intros Hin. apply in_map_iff. exists r. split; [| assumption].
    unfold rename_user. apply Z.eqb_neq in H. now rewrite H.
Qed.

Lemma upsert_existing_keeps_class_and_join_witness :
  has_user 1 (users sample_db) = true /\
  map class_name
    (users (upsert_user "2024-06-01T09:00:00" 1 (Some "new") None sample_db))
  = map class_name (users sample_db).
Proof.
  split; [reflexivity |].
  destruct (upsert_existing_keeps_class_and_join "2024-06-01T09:00:00" 1
              (Some "new") None sample_db eq_refl) as (_ & H & _).
  exact H.
Defined.

(** C10.  [set_user_class] for an id that was never upserted changes
    nothing: the UPDATE matches no row, the database is returned as it was
    (no row is created), and the function has no error result. *)
Theorem set_user_class_unknown_noop (uid : Z) (cls : string) (db : database) :
  has_user uid (users db) = false ->
  set_user_class uid cls db = db /\
  has_user uid (users (set_user_class uid cls db)) = false /\
  get_user_class uid (set_user_class uid cls db) = None.
Proof.
  intros Hno.
  assert (map (reclass_user uid cls) (users db) = users db) as Hmap.
  { rewrite <- (map_id (users db)) at 2. apply map_ext_in.
    intros r Hin. unfold reclass_user.
    destruct (user_id r =? uid) eqn:E; [| reflexivity].
    apply Z.eqb_eq in E.
    assert (has_user uid (users db) = true) as Hyes.
    { apply has_user_In, in_map_iff. now exists r. }
    congruence. }
  assert (set_user_class uid cls db = db) as Hsame.
  { unfold set_user_class. rewrite Hmap. apply db_eta. }
  rewrite Hsame. repeat split; trivial.
  unfold get_user_class. now rewrite find_has_user.
Qed.

Lemma set_user_class_unknown_noop_witness :
  has_user 9 (users sample_db) = false /\
  set_user_class 9 "6Г" sample_db = sample_db.
Proof.
  split; [reflexivity |].
  apply (set_user_class_unknown_noop 9 "6Г" sample_db).
  reflexivity.
Defined.

(** C7.  A class callback whose label is not in [CLASSES] is answered with
    the rejection text and nothing else happens: the handler returns the
    database it was given, so no user is inserted or renamed and no class is
    set. *)
Theorem cb_setclass_rejects_unknown (now : string) (who : from_user)
    (cls : string) (db : database) :
  str_in cls CLASSES = false ->
  cb_setclass now who ("class:" ++ cls) db
  = Some (db, [CbAnswer unknown_class_text]).
Proof.
  intros Hout. unfold cb_setclass.
  change (split_colon ("class:" ++ cls)) with (Some ("class", cls)).
  cbv beta iota. now rewrite Hout.
Qed.

Lemma cb_setclass_rejects_unknown_witness :
  str_in "7А" CLASSES = false /\
  cb_setclass "2024-05-01T10:00:00" (mk_from 5 None (Some "Ann")) "class:7А"
    init_db
  = Some (init_db, [CbAnswer "Такого класса нет в первом релизе."]).
Proof.
  split; [reflexivity |].
  apply (cb_setclass_rejects_unknown "2024-05-01T10:00:00"
           (mk_from 5 None (Some "Ann")) "7А" init_db).
  reflexivity.
Defined.

(** ** GROUP BY and ORDER BY *)

Section GroupByFacts.
Context {K : Type}.
Variable K_dec : forall a b : K, {a = b} + {a <> b}.
Variable K_leb : K -> K -> bool.

Lemma insert_key_perm (k : K) (ks : list K) :
  Permutation (insert_key K_leb k ks) (k :: ks).
Proof.
  induction ks as [| x ks IH]; simpl; [reflexivity |].
  destruct (K_leb k x); [reflexivity |].
  rewrite IH. apply perm_swap.
Qed.

Lemma sort_keys_perm (ks : list K) : Permutation (sort_keys K_leb ks) ks.
Proof.
  induction ks as [| x ks IH]; simpl; [reflexivity |].
  rewrite insert_key_perm. now constructor.
Qed.

Lemma insert_desc_perm (r : K * nat) (rows : list (K * nat)) :
  Permutation (insert_desc r rows) (r :: rows).
Proof.
  induction rows as [| x rows IH]; simpl; [reflexivity |].
  destruct (snd x <? snd r)%nat; [reflexivity |].
  rewrite IH. apply perm_swap.
Qed.

Lemma order_by_count_desc_perm (rows : list (K * nat)) :
  Permutation (order_by_count_desc rows) rows.
Proof.
  induction rows as [| x rows IH]; simpl; [reflexivity |].
  rewrite insert_desc_perm. now constructor.
Qed.

Lemma insert_desc_sorted (r : K * nat) (rows : list (K * nat)) :
  StronglySorted count_ge rows -> StronglySorted count_ge (insert_desc r rows).
Proof.
  induction rows as [| x rows IH]; simpl; intros Hs.
  - repeat constructor.
  - inversion Hs as [| ? ? Hrest Hall]; subst.
    destruct (snd x <? snd r)%nat eqn:E.
    + apply Nat.ltb_lt in E. constructor; [assumption |].
      constructor; [unfold count_ge; lia |].
      eapply Forall_impl; [| exact Hall].
      unfold count_ge. intros y Hy. lia.
    + apply Nat.ltb_ge in E. constructor; [now apply IH |].
      apply Forall_forall. intros y Hy.
      apply (Permutation_in _ (insert_desc_perm r rows)) in Hy.
      destruct Hy as [<- | Hy].
      * unfold count_ge. lia.
      * rewrite Forall_forall in Hall. now apply Hall.
Qed.

Lemma order_by_count_desc_sorted (rows : list (K * nat)) :
  StronglySorted count_ge (order_by_count_desc rows).
Proof.
  induction rows as [| x rows IH]; simpl; [constructor |].
  now apply insert_desc_sorted.
Qed.

(** A strictly largest row comes out first whatever the order among equal
    counts is. *)
Lemma strict_max_first (groups rows : list (K * nat)) (r : K * nat) :
  Permutation groups rows ->
  StronglySorted count_ge rows ->
  In r groups ->
  (forall x, In x groups -> x <> r -> (snd x < snd r)%nat) ->
  exists rest, rows = r :: rest.
Proof.
  intros Hperm Hsorted Hin Hmax.
  destruct rows as [| h rest].
  - apply Permutation_sym, Permutation_nil in Hperm. now subst.
  - exists rest. f_equal.
    assert (In h groups) as Hh.
    { apply (Permutation_in _ (Permutation_sym Hperm)). now left. }
    assert ({h = r} + {h <> r}) as Hdec
        by (decide equality; first [apply Nat.eq_dec | apply K_dec]).
    destruct Hdec as [-> | Hne]; [reflexivity |].
    exfalso. specialize (Hmax h Hh Hne).
    apply (Permutation_in _ Hperm) in Hin. destruct Hin as [-> | Hin].
    + lia.
    + inversion Hsorted as [| ? ? _ Hall]; subst.
      rewrite Forall_forall in Hall. specialize (Hall r Hin).
      unfold count_ge in Hall. lia.
Qed.

Lemma group_count_In (k : K) (c : nat) (keys : list K) :
  In (k, c) (group_count K_dec K_leb keys) <->
  In k keys /\ c = count_occ K_dec keys k.
Proof.
  unfold group_count. rewrite in_map_iff. split.
  - intros [k0 [E Hin]]. injection E as -> <-.
    apply (Permutation_in _ (sort_keys_perm _)) in Hin.
    apply nodup_In in Hin. auto.
  - intros [Hin ->]. exists k. split; [reflexivity |].
    apply (Permutation_in _ (Permutation_sym (sort_keys_perm _))).
    now apply nodup_In.
Qed.

Lemma group_count_positive (k : K) (c : nat) (keys : list K) :
  In (k, c) (group_count K_dec K_leb keys) -> (0 < c)%nat.
Proof.
  intros H. apply group_count_In in H as [Hin ->].
  now apply count_occ_In.
Qed.




End GroupByFacts.

(** ** Top habits *)





(** ** The join of check-ins with users *)

Lemma filter_none {A : Type} (f : A -> bool) (l : list A) :
  (forall x, In x l -> f x = false) -> filter f l = [].
Proof.
  induction l as [| a l IH]; simpl; intros H; [reflexivity |].
  rewrite (H a (or_introl eq_refl)). apply IH. auto.
Qed.

(** With unique ids the rows of one id are the row [find] returns. *)
Lemma filter_id_find (v : Z) (us : list user_row) :
  unique_ids us = true ->
  filter (fun u => user_id u =? v) us
  = match find (fun u => user_id u =? v) us with
    | Some u => [u]
    | None => []
    end.
Proof.
  induction us as [| x us IH]; simpl; [reflexivity |].
  rewrite andb_true_iff, negb_true_iff. intros [Hx Hu].
  destruct (user_id x =? v) eqn:E.
  - f_equal. apply filter_none. intros y Hy.
    destruct (user_id y =? v) eqn:F; [| reflexivity].
    apply Z.eqb_eq in E, F.
    assert (has_user (user_id x) us = true) as Hyes.
    { apply has_user_In, in_map_iff. exists y. split; [lia | assumption]. }
    congruence.
  - now apply IH.
Qed.

Lemma find_unique_In (u : user_row) (us : list user_row) :
  unique_ids us = true -> In u us ->
  find (fun r => user_id r =? user_id u) us = Some u.
Proof.
  induction us as [| x us IH]; simpl; [easy |].
  rewrite andb_true_iff, negb_true_iff. intros [Hx Hu] [-> | Hin].
  - now rewrite Z.eqb_refl.
  - destruct (user_id x =? user_id u) eqn:E; [| now apply IH].
    apply Z.eqb_eq in E.
    assert (has_user (user_id x) us = true) as Hyes.
    { apply has_user_In, in_map_iff. now exists u. }
    congruence.
Qed.

Lemma find_some_has_user (v : Z) (us : list user_row) :
  has_user v us
  = match find (fun u => user_id u =? v) us with
    | Some _ => true
    | None => false
    end.
Proof.
  unfold has_user. induction us as [| x us IH]; simpl; [reflexivity |].
  now destruct (user_id x =? v).
Qed.


(** With unique ids the join pairs each check-in of a registered user with
    its one owner, and drops the others. *)
Lemma join_users_owner (db : database) :
  unique_ids (users db) = true ->
  join_users db = pairs_of (owner db) (checkins db).
Proof.
  intros Hu. unfold join_users, pairs_of. apply flat_map_ext. intros c.
  unfold owner. rewrite filter_id_find by assumption.
  now destruct (find _ (users db)).
Qed.

Section OverTheJoin.
Variable own : checkin_row -> option user_row.

Lemma pairs_filter_fst (p : checkin_row * user_row -> bool)
    (cs : list checkin_row) :
  map fst (filter p (pairs_of own cs))
  = filter (fun c => match own c with
                     | Some u => p (c, u)
                     | None => false
                     end) cs.
Proof.
  induction cs as [| c cs IH]; simpl; [reflexivity |].
  destruct (own c) as [u |]; simpl; [| exact IH].
  destruct (p (c, u)); simpl; now rewrite IH.
Qed.

Lemma pairs_filter_count {K : Type} (K_dec : forall a b : K, {a = b} + {a <> b})
    (p : checkin_row * user_row -> bool) (g : checkin_row * user_row -> K)
    (k : K) (cs : list checkin_row) :
  count_occ K_dec (map g (filter p (pairs_of own cs))) k
  = List.length
      (filter (fun c => match own c with
                        | Some u =>
                            p (c, u) && if K_dec (g (c, u)) k then true else false
                        | None => false
                        end) cs).
Proof.
  induction cs as [| c cs IH]; simpl; [reflexivity |].
  destruct (own c) as [u |]; simpl; [| exact IH].
  destruct (p (c, u)); simpl; [| exact IH].
  destruct (K_dec (g (c, u)) k); simpl; now rewrite IH.
Qed.
End OverTheJoin.

Lemma joined_where_marks (w : where_sql) (db : database) :
  unique_ids (users db) = true ->
  joined_where w db = marks_where w db.
Proof.
  intros Hu. unfold joined_where, marks_where.
  rewrite join_users_owner by assumption.
  apply (pairs_filter_fst (owner db) (fun cu => where_holds w (snd cu))).
Qed.

Lemma marks_no_where (db : database) :
  marks_where NoWhere db = registered_marks db.
Proof.
  unfold marks_where, registered_marks. apply filter_ext. intros c.
  unfold owner. now rewrite find_some_has_user.
Qed.

Lemma filter_split_length {A : Type} (f : A -> bool) (l : list A) :
  (List.length (filter f l) + List.length (filter (fun x => negb (f x)) l)
   = List.length l)%nat.
Proof.
  induction l as [| a l IH]; simpl; [reflexivity |].
  destruct (f a); simpl; lia.
Qed.

(** C6.  [get_group_stats] without a filter: the member count is the number
    of rows of [users], with and without a class alike, and the three other
    results are the number of check-ins of registered users, the number of
    distinct days among them and their per-habit counts. *)
Theorem school_counts_all_users (db : database) :
  db_ok db = true ->
  get_group_stats NoWhere db
  = (List.length (users db),
     List.length (registered_marks db),
     distinct_days (registered_marks db),
     by_habit_of (registered_marks db)) /\
  (List.length (users db)
   = List.length (filter ungrouped (users db))
     + List.length (filter (fun u => negb (ungrouped u)) (users db)))%nat /\
  List.length (get_all_users db) = List.length (users db).
Proof.
  unfold db_ok. rewrite andb_true_iff. intros [Hu _].
  split; [| split].
  - unfold get_group_stats.
    rewrite joined_where_marks by assumption. rewrite marks_no_where.
    simpl where_holds. now rewrite filter_all by reflexivity.
  - symmetry. apply filter_split_length.
  - unfold get_all_users. apply length_map.
Qed.

Lemma school_counts_all_users_witness :
  db_ok sample_db = true /\
  get_group_stats NoWhere sample_db
  = (4%nat, 9%nat, 2%nat,
     [("no_cup", 3%nat); ("lights_off", 2%nat); ("water_teeth", 1%nat);
      ("trash_place", 1%nat); ("no_bag", 1%nat); ("eco_move", 1%nat)]).
Proof.
  split; [reflexivity |].
  destruct (school_counts_all_users sample_db eq_refl) as [H _].
  rewrite H. reflexivity.
Defined.

(** ** The evening reminder *)



Section EveningPingFacts.
Variable send_message : Z -> string -> markup -> option string.
Variable day_str : string.
Variable db : database.







End EveningPingFacts.

Lemma class_of_stored_user (db : database) (u : user_row) :
  unique_ids (users db) = true -> In u (users db) ->
  get_user_class (user_id u) db = class_name u.
Proof.
  intros Hu Hin. unfold get_user_class. now rewrite find_unique_In.
Qed.




(** ** The school statistics *)

Example iso_of_ordinal_samples :
  Calendar.iso_of_ordinal 1 = "0001-01-01" /\
  Calendar.iso_of_ordinal 730120 = "2000-01-01" /\
  Calendar.iso_of_ordinal 738946 = "2024-03-01" /\
  Calendar.iso_of_ordinal 738945 = "2024-02-29" /\
  Calendar.iso_of_ordinal 739013 = "2024-05-07" /\
  Calendar.iso_of_ordinal Calendar.MAXORDINAL = "9999-12-31".
Proof. repeat split. Qed.

Example most_active_line_sample :
  most_active_rows ["2024-05-01"] sample_db
  = [(Some "6В", 2%nat); (Some "6Г", 1%nat); (None, 1%nat)] /\
  top_class_line (most_active_rows ["2024-05-01"] sample_db)
  = "Самый активный класс за 7 дней: *6В* (отметок: *2*)".
Proof. split; reflexivity. Qed.

(** Equal counts: the rows come in the store's order, here the class before
    the users without a class. *)
Example most_active_tie_sample :
  most_active_rows ["2024-05-01"; "2024-05-02"] sample_db
  = [(Some "6В", 4%nat); (None, 4%nat); (Some "6Г", 1%nat)].
Proof. reflexivity. Qed.

Lemma fromordinal_in_range (n : Z) :
  1 <= n <= Calendar.MAXORDINAL ->
  Calendar.fromordinal n = Some (Calendar.ord_to_ymd n).
Proof.
  intros [Hlo Hhi]. unfold Calendar.fromordinal.
  apply Z.leb_le in Hlo, Hhi. now rewrite Hlo, Hhi.
Qed.

Lemma days_list_in_range (today : Z) :
  7 <= today <= Calendar.MAXORDINAL ->
  days_list today = Some (map Calendar.iso_of_ordinal (trailing_week today)).
Proof.
  intros Hr. unfold days_list, trailing_week.
  change (range 7) with [0; 1; 2; 3; 4; 5; 6]. cbn [map].
  rewrite !fromordinal_in_range by (unfold Calendar.MAXORDINAL in *; lia).
  cbn [option_map all_some]. unfold Calendar.iso_of_ordinal.
  replace (today - 6 + 0) with (today - 6) by lia.
  replace (today - 6 + 1) with (today - 5) by lia.
  replace (today - 6 + 2) with (today - 4) by lia.
  replace (today - 6 + 3) with (today - 3) by lia.
  replace (today - 6 + 4) with (today - 2) by lia.
  replace (today - 6 + 5) with (today - 1) by lia.
  replace (today - 6 + 6) with today by lia.
  reflexivity.
Qed.

Lemma send_school_stats_answer (today : Z) (db : database)
    (days : list string) :
  days_list today = Some days ->
  send_school_stats today db
  = Some [school_answer db (top_class_line (most_active_rows days db))].
Proof.
  intros Hd. unfold send_school_stats, school_answer.
  destruct (get_group_stats NoWhere db) as [[[uc ta] dc] bh].
  now rewrite Hd.
Qed.




(** ** The bucket of users without a class *)

(** With unique ids a group of the query counts the marks of its bucket. *)
Lemma bucket_count (days : list string) (db : database)
    (cls : option string) :
  unique_ids (users db) = true ->
  count_occ opt_str_dec (window_classes days db) cls
  = List.length (bucket_marks days db cls).
Proof.
  intros Hu. unfold window_classes, bucket_marks.
  rewrite join_users_owner by assumption.
  apply (pairs_filter_count (owner db) opt_str_dec
           (fun cu => str_in (ck_day (fst cu)) days)
           (fun cu => class_name (snd cu))).
Qed.

Lemma most_active_rows_In (days : list string) (db : database)
    (cls : option string) (c : nat) :
  unique_ids (users db) = true ->
  In (cls, c) (most_active_rows days db) <->
  c = List.length (bucket_marks days db cls) /\ (0 < c)%nat.
Proof.
  intros Hu. unfold most_active_rows. fold (window_classes days db).
  rewrite <- bucket_count by assumption. split.
  - intros H. apply (Permutation_in _ (order_by_count_desc_perm _)) in H.
    split; [now apply group_count_In in H | now apply group_count_positive in H].
  - intros [-> Hpos].
    apply (Permutation_in _ (Permutation_sym (order_by_count_desc_perm _))).
    apply group_count_In. split; [| reflexivity].
    now apply (count_occ_In opt_str_dec).
Qed.

Lemma top_class_line_null (c : nat) (rest : list (option string * nat)) :
  top_class_line ((None, c) :: rest) = no_week_data.
Proof. reflexivity. Qed.

(** When the bucket without a class is strictly the largest, any descending
    arrangement of the groups starts with it, however equal counts are
    ordered. *)
Lemma null_bucket_first (days : list string) (db : database)
    (rows : list (option string * nat)) :
  unique_ids (users db) = true ->
  Permutation
    (group_count opt_str_dec opt_str_leb (window_classes days db)) rows ->
  StronglySorted count_ge rows ->
  (0 < List.length (bucket_marks days db None))%nat ->
  (forall cls,
      (List.length (bucket_marks days db (Some cls))
       < List.length (bucket_marks days db None))%nat) ->
  exists rest, rows = (None, List.length (bucket_marks days db None)) :: rest.
Proof.
  intros Hu Hperm Hsorted Hpos Hmax.
  apply (strict_max_first opt_str_dec _ rows _ Hperm Hsorted).
  - apply group_count_In.
    split; [| symmetry; now apply bucket_count].
    apply (count_occ_In opt_str_dec). now rewrite bucket_count.
  - intros [k c] Hin Hne. apply group_count_In in Hin as [_ ->].
    rewrite bucket_count by assumption. simpl.
    destruct k as [cls |]; [apply Hmax |].
    contradiction Hne. f_equal. now apply bucket_count.
Qed.

(** C9.  Check-ins of the listed days whose owner is stored without a class
    form a group of their own in the query of [send_school_stats], with
    their number as its count; the other groups are the classes with their
    counts.  Whenever that group is the first row, the most-active line --
    and with it the answer of [send_school_stats] -- is the placeholder,
    although the window holds marks.  It is the first row when it has more
    check-ins than every class, and then in every descending arrangement of
    the groups, however the store orders equal counts. *)
Theorem null_bucket_shows_no_data (days : list string) (db : database) :
  db_ok db = true ->
  (0 < List.length (bucket_marks days db None))%nat ->
  let n0 := List.length (bucket_marks days db None) in
  let rows := most_active_rows days db in
  In (None, n0) rows /\
  (forall cls c,
      In (cls, c) rows <->
      c = List.length (bucket_marks days db cls) /\ (0 < c)%nat) /\
  (forall c rest,
      rows = (None, c) :: rest ->
      top_class_line rows = no_week_data /\
      forall today,
        days_list today = Some days ->
        send_school_stats today db = Some [school_answer db no_week_data]) /\
  ((forall cls, (List.length (bucket_marks days db (Some cls)) < n0)%nat) ->
   (exists rest, rows = (None, n0) :: rest) /\
   top_class_line rows = no_week_data /\
   (forall today,
       days_list today = Some days ->
       send_school_stats today db = Some [school_answer db no_week_data]) /\
   (forall rows',
       Permutation rows rows' ->
       StronglySorted count_ge rows' ->
       top_class_line rows' = no_week_data)).
Proof.
  unfold db_ok. rewrite andb_true_iff. intros [Hu _] Hpos. cbv zeta.
  split; [now apply most_active_rows_In |].
  split; [intros cls c; now apply most_active_rows_In |].
  assert (forall c rest,
             most_active_rows days db = (None, c) :: rest ->
             top_class_line (most_active_rows days db) = no_week_data /\
             forall today,
               days_list today = Some days ->
               send_school_stats today db
               = Some [school_answer db no_week_data]) as Hfirst.
  { intros c rest Hrows. split; [now rewrite Hrows |].
    intros today Hd. rewrite (send_school_stats_answer today db days Hd).
    now rewrite Hrows. }
  split; [exact Hfirst |].
  intros Hmax.
  assert (forall rows,
             Permutation (most_active_rows days db) rows ->
             StronglySorted count_ge rows ->
             exists rest,
               rows = (None, List.length (bucket_marks days db None)) :: rest)
    as Hany.
  { intros rows Hperm Hsorted.
    apply (null_bucket_first days db rows Hu); trivial.
    rewrite <- Hperm. unfold most_active_rows.
    apply Permutation_sym, order_by_count_desc_perm. }
  destruct (Hany (most_active_rows days db) (Permutation_refl _))
    as [rest Hrows].
  { apply order_by_count_desc_sorted. }
  destruct (Hfirst _ _ Hrows) as [Hline Hsend].
  split; [now exists rest |].
  split; [exact Hline |].
  split; [exact Hsend |].
  intros rows Hperm Hsorted.
  now destruct (Hany rows Hperm Hsorted) as [rest' ->].
Qed.

Lemma null_bucket_shows_no_data_witness :
  let days := ["2024-05-02"; "2024-05-03"; "2024-05-04"; "2024-05-05";
               "2024-05-06"; "2024-05-07"; "2024-05-08"] in
  db_ok sample_db = true /\
  (0 < List.length (bucket_marks days sample_db None))%nat /\
  days_list 739014 = Some days /\
  most_active_rows days sample_db = [(None, 3%nat); (Some "6В", 2%nat)] /\
  send_school_stats 739014 sample_db
  = Some [school_answer sample_db no_week_data].
Proof.
  cbv zeta. split; [reflexivity |]. split; [cbn; lia |].
  split; [reflexivity |]. split; [reflexivity |].
  destruct (null_bucket_shows_no_data
              ["2024-05-02"; "2024-05-03"; "2024-05-04"; "2024-05-05";
               "2024-05-06"; "2024-05-07"; "2024-05-08"] sample_db eq_refl)
    as (_ & Hgroups & _ & Hfirst); [cbn; lia |].
  apply Hfirst; [| reflexivity].
  intros cls.
  destruct (List.length (bucket_marks _ sample_db (Some cls))) as [| c] eqn:E;
    [cbn; lia |].
  assert (In (Some cls, S c) (most_active_rows
            ["2024-05-02"; "2024-05-03"; "2024-05-04"; "2024-05-05";
             "2024-05-06"; "2024-05-07"; "2024-05-08"] sample_db)) as Hin.
  { apply Hgroups. split; [now rewrite E | lia]. }
  cbn in Hin. destruct Hin as [H | [H | []]]; [discriminate |].
  injection H as _ <-. cbn. lia.
Defined.

(** C9 as first worded -- the placeholder whenever no class has more
    check-ins in the window than the users without a class -- fails on a
    tie.  In the week that ends on 2024-05-07 the users without a class and
    class 6В have four check-ins each and class 6Г has one; the query puts
    6В first and the line names it. *)
Lemma null_bucket_tie_shows_class :
  let days := ["2024-05-01"; "2024-05-02"; "2024-05-03"; "2024-05-04";
               "2024-05-05"; "2024-05-06"; "2024-05-07"] in
  days_list 739013 = Some days /\
  db_ok sample_db = true /\
  List.length (bucket_marks days sample_db None) = 4%nat /\
  (forall cls,
      (List.length (bucket_marks days sample_db (Some cls))
       <= List.length (bucket_marks days sample_db None))%nat) /\
  most_active_rows days sample_db
  = [(Some "6В", 4%nat); (None, 4%nat); (Some "6Г", 1%nat)] /\
  top_class_line (most_active_rows days sample_db)
  = "Самый активный класс за 7 дней: *6В* (отметок: *4*)" /\
  top_class_line (most_active_rows days sample_db) <> no_week_data.
Proof.
  cbv zeta. split; [reflexivity |]. split; [reflexivity |].
  split; [reflexivity |].
  split; [| split; [reflexivity | split; [reflexivity | discriminate]]].
  intros cls.
  destruct (List.length (bucket_marks _ sample_db (Some cls))) as [| c] eqn:E;
    [cbn; lia |].
  assert (In (Some cls, S c) (most_active_rows
            ["2024-05-01"; "2024-05-02"; "2024-05-03"; "2024-05-04";
             "2024-05-05"; "2024-05-06"; "2024-05-07"] sample_db)) as Hin.
  { apply most_active_rows_In; [reflexivity |].
    split; [now rewrite E | lia]. }
  cbn in Hin. destruct Hin as [H | [H | [H | []]]];
    [injection H as _ <- | discriminate | injection H as _ <-]; cbn; lia.
Qed.

(** * Further properties of the store and the handlers *)

(** ** Registering users *)

Lemma insert_user_In (r x : user_row) (us : list user_row) :
  In x (insert_user r us) <-> x = r \/ In x us.
Proof.
  split.
  - intros H. apply (Permutation_in _ (insert_user_perm r us)) in H.
    destruct H as [<- | H]; auto.
  - intros H.
    apply (Permutation_in _ (Permutation_sym (insert_user_perm r us))).
    destruct H as [-> | H]; [now left | now right].
Qed.

Lemma find_insert_user (r : user_row) (v : Z) (us : list user_row) :
  has_user (user_id r) us = false ->
  find (fun u => user_id u =? v) (insert_user r us)
  = if user_id r =? v then Some r else find (fun u => user_id u =? v) us.
Proof.
  unfold has_user. induction us as [| x us IH]; simpl; intros Hno.
  - reflexivity.
  - apply orb_false_iff in Hno as [Hx Hrest].
    destruct (user_id r <? user_id x); simpl.
    + reflexivity.
    + rewrite (IH Hrest).
      destruct (user_id x =? v) eqn:E; [| reflexivity].
      destruct (user_id r =? v) eqn:F; [| reflexivity].
      apply Z.eqb_eq in E, F. apply Z.eqb_neq in Hx. congruence.
Qed.

Lemma map_insert_user (f : user_row -> user_row) (r : user_row)
    (us : list user_row) :
  (forall u, user_id (f u) = user_id u) ->
  map f (insert_user r us) = insert_user (f r) (map f us).
Proof.
  intros Hid. induction us as [| x us IH]; simpl; [reflexivity |].
  rewrite !Hid. destruct (user_id r <? user_id x); simpl; [reflexivity |].
  now rewrite IH.
Qed.

Lemma rename_absent (uid : Z) (un fn : option string) (us : list user_row) :
  has_user uid us = false -> map (rename_user uid un fn) us = us.
Proof.
  intros Hno. rewrite <- (map_id us) at 2. apply map_ext_in.
  intros r Hin. unfold rename_user.
  destruct (user_id r =? uid) eqn:E; [| reflexivity].
  apply Z.eqb_eq in E.
  assert (has_user uid us = true) as Hyes
      by (apply has_user_In, in_map_iff; now exists r).
  congruence.
Qed.

Lemma has_user_upsert (now : string) (uid : Z) (un fn : option string)
    (db : database) :
  has_user uid (users (upsert_user now uid un fn db)) = true.
Proof.
  unfold upsert_user. destruct (has_user uid (users db)) eqn:E; simpl.
  - apply has_user_In. rewrite map_map.
    rewrite (map_ext _ user_id) by (intros; apply rename_user_id).
    now apply has_user_In.
  - apply has_user_In, in_map_iff. eexists. split; [| apply insert_user_In; now left].
    reflexivity.
Qed.

(** X1.  [upsert_user] on an id that is not stored adds exactly one row:
    the given names, no class, the current time as join time; the other
    rows and the check-ins stay. *)
Theorem upsert_new_user (now : string) (uid : Z) (uname fname : option string)
    (db : database) :
  has_user uid (users db) = false ->
  let db' := upsert_user now uid uname fname db in
  (forall r, In r (users db') <->
             r = mk_user uid uname fname None now \/ In r (users db)) /\
  List.length (users db') = S (List.length (users db)) /\
  find (fun u => user_id u =? uid) (users db')
  = Some (mk_user uid uname fname None now) /\
  get_user_class uid db' = None /\
  checkins db' = checkins db.
Proof.
  intros Hno. cbv zeta. unfold upsert_user, get_user_class. rewrite Hno. simpl.
  split; [intros r; apply insert_user_In |].
  split; [apply (Permutation_length (insert_user_perm _ _)) |].
  rewrite find_insert_user by exact Hno. simpl. rewrite Z.eqb_refl. auto.
Qed.

Lemma upsert_new_user_witness :
  has_user 9 (users sample_db) = false /\
  find (fun u => user_id u =? 9)
    (users (upsert_user "2024-05-03T07:00:00" 9 None (Some "Zoya") sample_db))
  = Some (mk_user 9 None (Some "Zoya") None "2024-05-03T07:00:00").
Proof.
  split; [reflexivity |].
  destruct (upsert_new_user "2024-05-03T07:00:00" 9 None (Some "Zoya")
              sample_db eq_refl) as (_ & _ & H & _).
  exact H.
Defined.

(** X2.  [upsert_user] never changes a class: whatever id it is called
    with, stored or not, every user's class reads back as before, and the
    check-ins are untouched. *)
Theorem upsert_keeps_every_class (now : string) (uid : Z)
    (uname fname : option string) (db : database) :
  (forall v, get_user_class v (upsert_user now uid uname fname db)
             = get_user_class v db) /\
  checkins (upsert_user now uid uname fname db) = checkins db.
Proof.
  destruct (has_user uid (users db)) eqn:E.
  - unfold upsert_user, get_user_class. rewrite E. simpl.
    split; [| reflexivity]. intros v.
    rewrite find_map_keeps_id by (intros; apply rename_user_id).
    destruct (find _ (users db)); simpl; [apply rename_user_class | trivial].
  - unfold upsert_user, get_user_class. rewrite E. simpl.
    split; [| reflexivity]. intros v.
    rewrite find_insert_user by exact E. simpl.
    destruct (uid =? v) eqn:F; [| reflexivity].
    apply Z.eqb_eq in F. subst v. now rewrite find_has_user.
Qed.

Lemma rename_rename (uid : Z) (un1 fn1 un2 fn2 : option string)
    (r : user_row) :
  rename_user uid un2 fn2 (rename_user uid un1 fn1 r)
  = rename_user uid un2 fn2 r.
Proof.
  unfold rename_user. destruct (user_id r =? uid) eqn:E; simpl; now rewrite E.
Qed.

(** X3.  Two [upsert_user] calls for one id leave what a single call with
    the first call's time and the second call's names leaves: the names
    are overwritten, the join time is the one of the first contact. *)
Theorem upsert_twice (now1 now2 : string) (uid : Z)
    (un1 fn1 un2 fn2 : option string) (db : database) :
  upsert_user now2 uid un2 fn2 (upsert_user now1 uid un1 fn1 db)
  = upsert_user now1 uid un2 fn2 db.
Proof.
  unfold upsert_user at 1. rewrite has_user_upsert.
  unfold upsert_user. destruct (has_user uid (users db)) eqn:E; simpl.
  - rewrite map_map. f_equal. apply map_ext. intros r. apply rename_rename.
  - f_equal.
    rewrite map_insert_user by (intros; apply rename_user_id).
    rewrite rename_absent by exact E.
    unfold rename_user. simpl. now rewrite Z.eqb_refl.
Qed.

(** ** Choosing a class *)

Lemma reclass_reclass (uid : Z) (c1 c2 : string) (r : user_row) :
  reclass_user uid c2 (reclass_user uid c1 r) = reclass_user uid c2 r.
Proof.
  unfold reclass_user. destruct (user_id r =? uid) eqn:E; simpl; now rewrite E.
Qed.

Lemma find_id (v : Z) (us : list user_row) (r : user_row) :
  find (fun u => user_id u =? v) us = Some r -> user_id r = v.
Proof. intros H. apply find_some in H as [_ H]. now apply Z.eqb_eq. Qed.

Lemma get_user_class_set (uid v : Z) (cls : string) (db : database) :
  get_user_class v (set_user_class uid cls db)
  = if has_user v (users db) && (v =? uid) then Some cls
    else get_user_class v db.
Proof.
  unfold get_user_class, set_user_class. simpl.
  rewrite find_map_keeps_id by (intros; apply reclass_user_id).
  rewrite find_some_has_user.
  destruct (find _ (users db)) as [r |] eqn:E; simpl; [| reflexivity].
  apply find_id in E. unfold reclass_user. rewrite E.
  now destruct (v =? uid).
Qed.

(** X4.  [set_user_class] for a stored id: the class reads back as the one
    just set, every other user's class reads back as before, and ids,
    names, join times and check-ins are untouched. *)
Theorem set_user_class_reads_back (uid : Z) (cls : string) (db : database) :
  has_user uid (users db) = true ->
  let db' := set_user_class uid cls db in
  get_user_class uid db' = Some cls /\
  (forall v, v <> uid -> get_user_class v db' = get_user_class v db) /\
  map user_id (users db') = map user_id (users db) /\
  map username (users db') = map username (users db) /\
  map first_name (users db') = map first_name (users db) /\
  map joined_at (users db') = map joined_at (users db) /\
  checkins db' = checkins db.
Proof.
  intros Hhas. cbv zeta.
  split; [rewrite get_user_class_set, Hhas, Z.eqb_refl; reflexivity |].
  split.
  { intros v Hne. rewrite get_user_class_set.
    apply Z.eqb_neq in Hne. now rewrite Hne, andb_false_r. }
  unfold set_user_class. simpl. rewrite !map_map.
  repeat split; apply map_ext; intros r; unfold reclass_user;
    now destruct (user_id r =? uid).
Qed.

Lemma set_user_class_reads_back_witness :
  has_user 3 (users sample_db) = true /\
  get_user_class 3 (set_user_class 3 "6Г" sample_db) = Some "6Г".
Proof.
  split; [reflexivity |].
  destruct (set_user_class_reads_back 3 "6Г" sample_db eq_refl) as [H _].
  exact H.
Defined.

(** X5.  [set_user_class] overwrites: of two calls for one id only the
    second class remains. *)
Theorem set_user_class_last_wins (uid : Z) (c1 c2 : string) (db : database) :
  set_user_class uid c2 (set_user_class uid c1 db) = set_user_class uid c2 db.
Proof.
  unfold set_user_class. simpl. rewrite map_map. f_equal.
  apply map_ext. intros r. apply reclass_reclass.
Qed.

Lemma cb_setclass_known (now : string) (who : from_user) (data cls : string)
    (db : database) :
  split_colon data = Some ("class", cls) ->
  str_in cls CLASSES = true ->
  exists acts,
    cb_setclass now who data db
    = Some (set_user_class (from_id who) cls (upsert_sender now who db), acts).
Proof.
  intros Hsplit Hin. unfold cb_setclass. rewrite Hsplit, Hin. simpl.
  now eexists.
Qed.

Lemma class_after_choice (now : string) (who : from_user) (cls : string)
    (db : database) :
  let db' := set_user_class (from_id who) cls (upsert_sender now who db) in
  get_user_class (from_id who) db' = Some cls /\
  (forall v, v <> from_id who -> get_user_class v db' = get_user_class v db) /\
  checkins db' = checkins db.
Proof.
  cbv zeta. unfold upsert_sender.
  split; [| split].
  - rewrite get_user_class_set, has_user_upsert, Z.eqb_refl. reflexivity.
  - intros v Hne. rewrite get_user_class_set.
    apply Z.eqb_neq in Hne. rewrite Hne, andb_false_r.
    unfold upsert_user, get_user_class.
    destruct (has_user (from_id who) (users db)) eqn:E; simpl.
    + rewrite find_map_keeps_id by (intros; apply rename_user_id).
      destruct (find _ (users db)); simpl; [apply rename_user_class | trivial].
    + rewrite find_insert_user by exact E. simpl.
      rewrite Z.eqb_sym, Hne. reflexivity.
  - unfold set_user_class, upsert_user. simpl.
    now destruct (has_user (from_id who) (users db)).
Qed.

(** X6.  A class callback whose label is in [CLASSES] registers the sender
    if need be and sets the class: afterwards the sender's class reads back
    as the label, the other users' classes and all check-ins are as
    before. *)
Theorem cb_setclass_accepts_known (now : string) (who : from_user)
    (cls : string) (db : database) :
  str_in cls CLASSES = true ->
  exists db' acts,
    cb_setclass now who ("class:" ++ cls) db = Some (db', acts) /\
    get_user_class (from_id who) db' = Some cls /\
    has_user (from_id who) (users db') = true /\
    (forall v, v <> from_id who ->
               get_user_class v db' = get_user_class v db) /\
    checkins db' = checkins db.
Proof.
  intros Hin.
  destruct (cb_setclass_known now who ("class:" ++ cls) cls db eq_refl Hin)
    as [acts Hrun].
  destruct (class_after_choice now who cls db) as (Hc & Hother & Hck).
  exists (set_user_class (from_id who) cls (upsert_sender now who db)), acts.
  split; [exact Hrun |]. split; [exact Hc |].
  split; [| split; assumption].
  rewrite find_some_has_user. unfold get_user_class in Hc.
  now destruct (find _ _).
Qed.

Lemma cb_setclass_accepts_known_witness :
  str_in "6Г" CLASSES = true /\
  exists db' acts,
    cb_setclass "2024-05-03T07:00:00" (mk_from 3 (Some "vera") (Some "Vera"))
      "class:6Г" sample_db = Some (db', acts) /\
    get_user_class 3 db' = Some "6Г".
Proof.
  split; [reflexivity |].
  destruct (cb_setclass_accepts_known "2024-05-03T07:00:00"
              (mk_from 3 (Some "vera") (Some "Vera")) "6Г" sample_db eq_refl)
    as (db' & acts & Hrun & Hc & _).
  exists db', acts. split; [exact Hrun | exact Hc].
Defined.

Lemma prefix_app (p s : string) : String.prefix p (p ++ s) = true.
Proof.
  induction p as [| a p IH]; simpl; [now destruct s |].
  now destruct (ascii_dec a a).
Qed.

(** X7.  Every button of [class_pick_kb] is accepted: its callback data
    is routed to [cb_setclass], and pressing it sets the sender's class to
    the text the button shows. *)
Theorem class_pick_buttons_accepted (now : string) (who : from_user)
    (db : database) (b : button) :
  In b (buttons class_pick_kb) ->
  String.prefix "class:" (callback_data b) = true /\
  exists db' acts,
    cb_setclass now who (callback_data b) db = Some (db', acts) /\
    get_user_class (from_id who) db' = Some (btn_text b).
Proof.
  unfold buttons, class_pick_kb. cbn [List.concat]. rewrite app_nil_r.
  intros Hin. apply in_map_iff in Hin as [cls [<- Hcls]].
  apply str_in_In in Hcls. cbn [callback_data btn_text].
  split; [apply prefix_app |].
  destruct (cb_setclass_known now who ("class:" ++ cls) cls db eq_refl Hcls)
    as [acts Hrun].
  destruct (class_after_choice now who cls db) as (Hc & _).
  eauto.
Qed.

Lemma class_pick_buttons_accepted_witness :
  In (mk_button "6В" "class:6В") (buttons class_pick_kb) /\
  String.prefix "class:" "class:6В" = true.
Proof.
  assert (In (mk_button "6В" "class:6В") (buttons class_pick_kb)) as Hin
      by (now left).
  split; [exact Hin |].
  apply (class_pick_buttons_accepted "2024-05-03T07:00:00"
           (mk_from 3 None None) sample_db _ Hin).
Defined.

(** ** Marking habits *)

Lemma day_habits_In (uid : Z) (day key : string) (db : database) :
  In key (get_user_day_habits uid day db)
  <-> In (mk_checkin uid day key) (checkins db).
Proof.
  rewrite <- str_in_In, day_habits_has_mark. apply existsb_checkin_In.
Qed.

(** X8.  What [get_user_day_habits] returns after a [set_habit]: for the
    user, day and habit written, the habit is listed exactly when the target
    state was true; for every other user, day or habit the answer is the one
    from before.  The users are untouched. *)
Theorem day_habits_after_set_habit (uid : Z) (day key : string) (b : bool)
    (db : database) (uid' : Z) (day' key' : string) :
  (In key' (get_user_day_habits uid' day' (set_habit uid day key b db)) <->
   (mk_checkin uid' day' key' = mk_checkin uid day key /\ b = true) \/
   (mk_checkin uid' day' key' <> mk_checkin uid day key /\
    In key' (get_user_day_habits uid' day' db))) /\
  users (set_habit uid day key b db) = users db.
Proof.
  split; [| apply set_habit_users].
  rewrite !day_habits_In. apply set_habit_In.
Qed.

Lemma map_habit_NoDup (uid : Z) (day : string) (cs : list checkin_row) :
  NoDup cs ->
  NoDup (map ck_habit
           (filter (fun r => (ck_user r =? uid) && (ck_day r =? day)%string)
              cs)).
Proof.
  intros Hnd. apply Finite.Injective_map_NoDup_in.
  - intros x y Hx Hy E.
    apply filter_In in Hx as [_ Hx], Hy as [_ Hy].
    apply andb_true_iff in Hx as [Hxu Hxd], Hy as [Hyu Hyd].
    apply Z.eqb_eq in Hxu, Hyu. apply String.eqb_eq in Hxd, Hyd.
    destruct x, y; simpl in *. congruence.
  - now apply NoDup_filter.
Qed.

(** With the primary key the set of a day's habits has one element per
    stored check-in of that user and day. *)
Lemma day_habits_length (uid : Z) (day : string) (db : database) :
  unique_marks (checkins db) = true ->
  List.length (get_user_day_habits uid day db)
  = List.length (day_marks uid day db).
Proof.
  intros Hu. apply unique_marks_NoDup in Hu.
  unfold get_user_day_habits, day_marks.
  rewrite nodup_fixed_point by now apply map_habit_NoDup.
  apply length_map.
Qed.

Lemma filter_remove_one {A : Type} (f g : A -> bool) (x : A) (l : list A) :
  NoDup l -> In x l -> f x = true ->
  (forall y, g y = false <-> y = x) ->
  S (List.length (filter f (filter g l))) = List.length (filter f l).
Proof.
  intros Hnd Hin Hfx Hg. induction l as [| a l IH]; [easy |].
  apply NoDup_cons_iff in Hnd as [Hna Hnd]. simpl.
  destruct Hin as [-> | Hin].
  - assert (g x = false) as -> by now apply Hg.
    rewrite Hfx. simpl. f_equal.
    rewrite (filter_all g); [reflexivity |].
    intros y Hy. destruct (g y) eqn:E; [reflexivity |].
    apply Hg in E. now subst.
  - destruct (g a) eqn:E.
    + simpl. destruct (f a); simpl; now rewrite <- IH.
    + apply Hg in E. now subst.
Qed.

(** X9.  A toggle changes the number of habits marked for that user and
    day by exactly one: one more when the habit was unmarked, one fewer
    when it was marked. *)
Theorem toggle_changes_count_by_one (uid : Z) (day key : string)
    (db : database) :
  db_ok db = true ->
  let n := List.length (get_user_day_habits uid day db) in
  let n' :=
    List.length
      (get_user_day_habits uid day (fst (toggle_habit uid day key db))) in
  if has_mark uid day key db then S n' = n else n' = S n.
Proof.
  intros Hok. cbv zeta. unfold toggle_habit. cbn [fst].
  rewrite day_habits_has_mark.
  assert (db_ok (set_habit uid day key (negb (has_mark uid day key db)) db)
          = true) as Hok' by now apply set_habit_ok.
  unfold db_ok in Hok, Hok'. apply andb_true_iff in Hok as [_ Hu].
  apply andb_true_iff in Hok' as [_ Hu'].
  rewrite !day_habits_length by assumption.
  unfold day_marks, set_habit.
  destruct (has_mark uid day key db) eqn:E; unfold has_mark in E; cbn [negb].
  - cbn [checkins].
    apply (filter_remove_one _ _ (mk_checkin uid day key)).
    + now apply unique_marks_NoDup.
    + now apply existsb_checkin_In.
    + simpl. now rewrite Z.eqb_refl, String.eqb_refl.
    + intros y. rewrite negb_false_iff. apply checkin_eqb_eq.
  - rewrite E. cbn [checkins]. rewrite filter_app, length_app. simpl.
    rewrite Z.eqb_refl, String.eqb_refl. simpl. lia.
Qed.

Lemma toggle_changes_count_by_one_witness :
  db_ok sample_db = true /\
  List.length
    (get_user_day_habits 1 "2024-05-01"
       (fst (toggle_habit 1 "2024-05-01" "no_bag" sample_db)))
  = S (List.length (get_user_day_habits 1 "2024-05-01" sample_db)).
Proof.
  split; [reflexivity |].
  apply (toggle_changes_count_by_one 1 "2024-05-01" "no_bag" sample_db eq_refl).
Defined.

(** X10.  On data ["done:"] followed by a day text, whatever that text is,
    [cb_done] unpacks the day and the message it asks the transport to send
    carries the number of check-ins stored for the sender on that day. *)
Theorem cb_done_counts_marks (who : from_user) (day : string) (db : database) :
  db_ok db = true ->
  cb_done who ("done:" ++ day) db
  = Some [ CbAnswer "Сохранено!";
           Answer ("Спасибо! За " ++ day ++ " отмечено привычек: "
                   ++ str_of_nat (List.length (day_marks (from_id who) day db))
                   ++ " ✅")
             false main_menu_kb ].
Proof.
  unfold db_ok. rewrite andb_true_iff. intros [_ Hu]. unfold cb_done.
  change (split_colon ("done:" ++ day)) with (Some ("done", day)).
  cbv beta iota. now rewrite day_habits_length.
Qed.

Lemma cb_done_counts_marks_witness :
  db_ok sample_db = true /\
  cb_done (mk_from 3 None None) "done:2024-05-02" sample_db
  = Some [ CbAnswer "Сохранено!";
           Answer "Спасибо! За 2024-05-02 отмечено привычек: 3 ✅"
             false main_menu_kb ].
Proof.
  split; [reflexivity |].
  exact (cb_done_counts_marks (mk_from 3 None None) "2024-05-02" sample_db
           eq_refl).
Defined.

Lemma flat_map_filter_skip {A B : Type} (f : A -> list B) (p : A -> bool)
    (l : list A) :
  (forall x, p x = false -> f x = []) ->
  flat_map f (filter p l) = flat_map f l.
Proof.
  intros Hskip. induction l as [| a l IH]; simpl; [reflexivity |].
  destruct (p a) eqn:E; simpl; [now rewrite IH |].
  now rewrite (Hskip a E), IH.
Qed.

Lemma no_rows_of_absent (uid : Z) (us : list user_row) :
  has_user uid us = false -> filter (fun u => user_id u =? uid) us = [].
Proof.
  intros Hno. apply filter_none. intros u Hin.
  destruct (user_id u =? uid) eqn:E; [| reflexivity].
  apply Z.eqb_eq in E.
  assert (has_user uid us = true) as Hyes
      by (apply has_user_In, in_map_iff; now exists u).
  congruence.
Qed.

Lemma join_users_set_habit_absent (uid : Z) (day key : string) (b : bool)
    (db : database) :
  has_user uid (users db) = false ->
  join_users (set_habit uid day key b db) = join_users db.
Proof.
  intros Hno. unfold set_habit, join_users. destruct b.
  - destruct (existsb _ (checkins db)); [reflexivity |]. simpl.
    rewrite flat_map_app. simpl.
    rewrite no_rows_of_absent by exact Hno. simpl. now rewrite !app_nil_r.
  - simpl. apply flat_map_filter_skip. intros c Hc.
    apply negb_false_iff, checkin_eqb_eq in Hc. subst c. simpl.
    now rewrite no_rows_of_absent.
Qed.

(** X11.  [cb_toggle] does not register the sender.  A toggle by an id that
    is not in [users] is stored all the same and counts in that id's own
    statistics, but it leaves every class and school statistic and the
    most-active query as they were: the join with [users] drops it. *)
Theorem unregistered_toggle_not_counted (uid : Z) (day key : string)
    (db : database) :
  has_user uid (users db) = false ->
  let db' := fst (toggle_habit uid day key db) in
  has_mark uid day key db' = negb (has_mark uid day key db) /\
  has_user uid (users db') = false /\
  (forall w, get_group_stats w db' = get_group_stats w db) /\
  (forall days, most_active_rows days db' = most_active_rows days db).
Proof.
  intros Hno. cbv zeta. unfold toggle_habit. cbn [fst].
  rewrite day_habits_has_mark.
  split; [apply has_mark_set_habit_same |].
  split; [now rewrite set_habit_users |].
  split.
  - intros w. unfold get_group_stats, joined_where.
    now rewrite join_users_set_habit_absent, set_habit_users.
  - intros days. unfold most_active_rows.
    now rewrite join_users_set_habit_absent.
Qed.

Lemma unregistered_toggle_not_counted_witness :
  has_user 9 (users sample_db) = false /\
  get_group_stats NoWhere (fst (toggle_habit 9 "2024-05-02" "no_cup" sample_db))
  = get_group_stats NoWhere sample_db /\
  fst (fst (get_user_stats 9
              (fst (toggle_habit 9 "2024-05-02" "no_cup" sample_db))))
  = 1%nat.
Proof.
  split; [reflexivity |].
  destruct (unregistered_toggle_not_counted 9 "2024-05-02" "no_cup" sample_db
              eq_refl) as (_ & _ & H & _).
  split; [apply H | reflexivity].
Defined.

(** ** Statistics *)

Section CountSums.
Context {K : Type}.
Variable K_dec : forall a b : K, {a = b} + {a <> b}.

Lemma list_sum_map_perm (f : K -> nat) (l l' : list K) :
  Permutation l l' -> list_sum (map f l) = list_sum (map f l').
Proof.
  intros H. induction H; simpl; lia.
Qed.

Lemma list_sum_map_add (f g : K -> nat) (l : list K) :
  list_sum (map (fun k => (f k + g k)%nat) l)
  = (list_sum (map f l) + list_sum (map g l))%nat.
Proof.
  induction l as [| a l IH]; simpl; lia.
Qed.

Lemma list_sum_indicator (a : K) (l : list K) :
  NoDup l ->
  list_sum (map (fun k => if K_dec a k then 1%nat else 0%nat) l)
  = if in_dec K_dec a l then 1%nat else 0%nat.
Proof.
  induction l as [| x l IH]; simpl; intros Hnd; [reflexivity |].
  apply NoDup_cons_iff in Hnd as [Hx Hnd]. rewrite (IH Hnd).
  destruct (K_dec x a) as [-> | Hne].
  - destruct (K_dec a a); [| congruence].
    destruct (in_dec K_dec a l); [contradiction | reflexivity].
  - destruct (K_dec a x); [congruence |].
    now destruct (in_dec K_dec a l).
Qed.

Lemma count_occ_sum (keys l : list K) :
  NoDup l -> incl keys l ->
  list_sum (map (count_occ K_dec keys) l) = List.length keys.
Proof.
  intros Hnd. induction keys as [| a keys IH]; intros Hincl.
  - simpl. induction l as [| x l IHl]; simpl; [reflexivity |].
    apply IHl; [now apply NoDup_cons_iff in Hnd | easy].
  - rewrite (map_ext _
               (fun k => ((if K_dec a k then 1 else 0)
                          + count_occ K_dec keys k)%nat)).
    + rewrite list_sum_map_add, list_sum_indicator by assumption.
      rewrite IH by (intros k Hk; apply Hincl; now right).
      destruct (in_dec K_dec a l) as [_ | Hout]; [reflexivity |].
      contradiction Hout. apply Hincl. now left.
    + intros k. simpl. now destruct (K_dec a k).
Qed.

Lemma group_count_total (K_leb : K -> K -> bool) (keys : list K) :
  total_count (group_count K_dec K_leb keys) = List.length keys.
Proof.
  unfold total_count, group_count. rewrite map_map. cbn [snd].
  rewrite (list_sum_map_perm _ _ _ (sort_keys_perm K_leb _)).
  apply count_occ_sum; [apply NoDup_nodup |].
  intros k Hk. now apply nodup_In.
Qed.

Lemma order_by_count_desc_total (rows : list (K * nat)) :
  total_count (order_by_count_desc rows) = total_count rows.
Proof.
  unfold total_count.
  pose proof (Permutation_map snd (order_by_count_desc_perm rows)) as H.
  induction H; simpl; lia.
Qed.

Lemma nodup_length_le (l : list K) :
  (List.length (nodup K_dec l) <= List.length l)%nat.
Proof.
  apply NoDup_incl_length; [apply NoDup_nodup |].
  intros k Hk. now apply nodup_In in Hk.
Qed.

Lemma nodup_length_zero (l : list K) :
  List.length (nodup K_dec l) = 0%nat <-> List.length l = 0%nat.
Proof.
  split; intros H.
  - destruct l as [| a l]; [reflexivity |].
    apply length_zero_iff_nil in H.
    assert (In a (nodup K_dec (a :: l))) as Hin by (apply nodup_In; now left).
    now rewrite H in Hin.
  - apply length_zero_iff_nil in H. now subst.
Qed.
End CountSums.

Lemma by_habit_of_total (marks : list checkin_row) :
  total_count (by_habit_of marks) = List.length marks.
Proof.
  unfold by_habit_of.
  now rewrite order_by_count_desc_total, group_count_total, length_map.
Qed.

Lemma distinct_days_le (marks : list checkin_row) :
  (distinct_days marks <= List.length marks)%nat /\
  (distinct_days marks = 0%nat <-> List.length marks = 0%nat).
Proof.
  unfold distinct_days. rewrite <- (length_map ck_day marks).
  split; [apply nodup_length_le | apply nodup_length_zero].
Qed.

(** X12.  In the results of [get_user_stats] and of [get_group_stats] the
    per-habit counts add up to the total number of marks. *)
Theorem habit_counts_add_up (db : database) :
  (forall uid,
      total_count (snd (get_user_stats uid db))
      = fst (fst (get_user_stats uid db))) /\
  (forall w,
      total_count (snd (get_group_stats w db))
      = snd (fst (fst (get_group_stats w db)))).
Proof.
  split; intros; apply by_habit_of_total.
Qed.

(** X13.  In the results of [get_user_stats] and of [get_group_stats] the
    number of active days is at most the number of marks, and it is zero
    exactly when there are no marks. *)
Theorem active_days_bounded (db : database) :
  (forall uid,
      let '(total, days, _) := get_user_stats uid db in
      (days <= total)%nat /\ (days = 0%nat <-> total = 0%nat)) /\
  (forall w,
      let '(_, total, days, _) := get_group_stats w db in
      (days <= total)%nat /\ (days = 0%nat <-> total = 0%nat)).
Proof.
  split; intros; apply distinct_days_le.
Qed.

(** X14.  For an id without any check-in, stored as a user or not,
    [get_user_stats] returns zero marks, zero days and no rows, and
    [send_my_stats] shows the placeholder under the two zeros. *)
Theorem user_without_marks (who : from_user) (db : database) :
  (forall c, In c (checkins db) -> ck_user c <> from_id who) ->
  get_user_stats (from_id who) db = (0%nat, 0%nat, []) /\
  send_my_stats who db
  = [ Answer ("📊 *Моя статистика*" ++ newline
              ++ "Активных дней: *0*" ++ newline
              ++ "Всего отметок: *0*" ++ newline ++ newline
              ++ "Топ привычек:" ++ newline ++ no_habit_data)
        true main_menu_kb ].
Proof.
  intros Hnone.
  assert (get_user_stats (from_id who) db = (0%nat, 0%nat, [])) as Hstats.
  { unfold get_user_stats. rewrite filter_none; [reflexivity |].
    intros c Hc. apply Z.eqb_neq. now apply Hnone. }
  split; [exact Hstats |]. unfold send_my_stats. now rewrite Hstats.
Qed.

Lemma user_without_marks_witness :
  (forall c, In c (checkins sample_db) -> ck_user c <> 9) /\
  get_user_stats 9 sample_db = (0%nat, 0%nat, []).
Proof.
  assert (forall c, In c (checkins sample_db) -> ck_user c <> 9) as Hnone.
  { intros c Hc. simpl in Hc.
    repeat (destruct Hc as [<- | Hc]; [simpl; lia |]). destruct Hc. }
  split; [exact Hnone |].
  apply (user_without_marks (mk_from 9 None None) sample_db Hnone).
Defined.

Lemma owner_class (db : database) (c : checkin_row) (cls : string) :
  match owner db c with
  | Some u => class_is cls u
  | None => false
  end = true
  <-> get_user_class (ck_user c) db = Some cls.
Proof.
  unfold owner, get_user_class, class_is.
  destruct (find _ (users db)) as [u |]; [| easy].
  destruct (class_name u) as [k |]; [| easy].
  rewrite String.eqb_eq. split; congruence.
Qed.

(** X15.  [get_group_stats] with the class filter: the member count is the
    length of [get_class_users]; the marks counted are exactly the check-ins
    whose user reads back that class, so never more than the school-wide
    total. *)
Theorem class_stats_cover_class (cls : string) (db : database) :
  db_ok db = true ->
  let m := marks_where (WhereClass cls) db in
  get_group_stats (WhereClass cls) db
  = (List.length (get_class_users cls db), List.length m,
     distinct_days m, by_habit_of m) /\
  (forall c, In c m <->
             In c (checkins db)
             /\ get_user_class (ck_user c) db = Some cls) /\
  (List.length m <= snd (fst (fst (get_group_stats NoWhere db))))%nat.
Proof.
  unfold db_ok. rewrite andb_true_iff. intros [Hu Hm]. cbv zeta.
  split; [| split].
  - unfold get_group_stats, get_class_users.
    rewrite joined_where_marks by assumption. now rewrite length_map.
  - intros c. unfold marks_where. rewrite filter_In.
    cbn [where_holds]. now rewrite owner_class.
  - unfold get_group_stats. cbn [fst snd].
    rewrite joined_where_marks by assumption.
    apply NoDup_incl_length.
    + apply NoDup_filter. now apply unique_marks_NoDup.
    + intros c Hc. unfold marks_where in *. apply filter_In in Hc as [Hin Hc].
      apply filter_In. split; [assumption |]. cbn [where_holds].
      now destruct (owner db c).
Qed.

Lemma class_stats_cover_class_witness :
  db_ok sample_db = true /\
  get_group_stats (WhereClass "6В") sample_db
  = (2%nat, 4%nat, 2%nat,
     [("lights_off", 2%nat); ("water_teeth", 1%nat); ("no_cup", 1%nat)]).
Proof.
  split; [reflexivity |].
  destruct (class_stats_cover_class "6В" sample_db eq_refl) as [H _].
  rewrite H. reflexivity.
Defined.

(** X16.  The two listings of users: [get_all_users] holds each stored id
    once; [get_class_users] holds, once each, exactly the ids whose class
    reads back as the class asked for. *)
Theorem user_listings (cls : string) (db : database) :
  db_ok db = true ->
  NoDup (get_all_users db) /\
  (forall uid, In uid (get_all_users db) <-> has_user uid (users db) = true) /\
  NoDup (get_class_users cls db) /\
  (forall uid, In uid (get_class_users cls db) <->
               get_user_class uid db = Some cls).
Proof.
  unfold db_ok. rewrite andb_true_iff. intros [Hu _].
  pose proof Hu as Hnd. apply unique_ids_NoDup in Hnd.
  split; [exact Hnd |].
  split; [intros uid; symmetry; apply has_user_In |].
  split.
  - unfold get_class_users.
    apply Finite.Injective_map_NoDup_in.
    + intros x y Hx Hy E. apply filter_In in Hx as [Hx _], Hy as [Hy _].
      pose proof (find_unique_In x (users db) Hu Hx) as Fx.
      pose proof (find_unique_In y (users db) Hu Hy) as Fy.
      rewrite E in Fx. congruence.
    + apply NoDup_filter.
      apply (NoDup_map_inv user_id). exact Hnd.
  - intros uid. unfold get_class_users. rewrite in_map_iff. split.
    + intros [u [<- Hin]]. apply filter_In in Hin as [Hin Hc].
      rewrite class_of_stored_user by assumption.
      unfold class_is in Hc. destruct (class_name u) as [k |]; [| easy].
      apply String.eqb_eq in Hc. now subst.
    + unfold get_user_class. intros H.
      destruct (find _ (users db)) as [u |] eqn:E; [| easy].
      exists u. split; [now apply find_id in E |].
      apply find_some in E as [Hin _]. apply filter_In. split; [assumption |].
      unfold class_is. rewrite H. apply String.eqb_refl.
Qed.

Lemma user_listings_witness :
  db_ok sample_db = true /\
  (In 4 (get_class_users "6В" sample_db) <->
   get_user_class 4 sample_db = Some "6В").
Proof.
  split; [reflexivity |].
  destruct (user_listings "6В" sample_db eq_refl) as (_ & _ & _ & H).
  apply H.
Defined.

(** X17.  When the first row of the most-active query names a class, the
    line shows that class with its number of check-ins in the window, and
    no class -- nor the users without a class -- has more check-ins in the
    window. *)
Theorem most_active_is_maximal (days : list string) (db : database)
    (cls : string) (n : nat) (rest : list (option string * nat)) :
  db_ok db = true ->
  most_active_rows days db = (Some cls, n) :: rest ->
  cls <> ""%string ->
  top_class_line (most_active_rows days db)
  = "Самый активный класс за 7 дней: *" ++ cls ++ "* (отметок: *"
    ++ str_of_nat n ++ "*)" /\
  n = List.length (bucket_marks days db (Some cls)) /\
  (0 < n)%nat /\
  (forall k, (List.length (bucket_marks days db k) <= n)%nat).
Proof.
  unfold db_ok. rewrite andb_true_iff. intros [Hu _] Hrows Hcls.
  assert (In (Some cls, n) (most_active_rows days db)) as Hhead
      by (rewrite Hrows; now left).
  apply most_active_rows_In in Hhead as [Hn Hpos]; [| assumption].
  split.
  { rewrite Hrows. unfold top_class_line, truthy.
    apply String.eqb_neq in Hcls. now rewrite Hcls. }
  split; [exact Hn |]. split; [exact Hpos |].
  intros k.
  destruct (List.length (bucket_marks days db k)) as [| c] eqn:E; [lia |].
  assert (In (k, S c) (most_active_rows days db)) as Hin.
  { apply most_active_rows_In; [assumption |]. split; [now rewrite E | lia]. }
  pose proof (order_by_count_desc_sorted
                (group_count opt_str_dec opt_str_leb
                   (window_classes days db))) as Hsorted.
  fold (most_active_rows days db) in Hsorted.
  unfold most_active_rows in Hsorted, Hin, Hrows.
  fold (window_classes days db) in Hin, Hrows.
  rewrite Hrows in Hsorted, Hin.
  inversion Hsorted as [| ? ? _ Hall]; subst.
  destruct Hin as [Heq | Hin].
  - injection Heq as _ <-. lia.
  - rewrite Forall_forall in Hall. apply Hall in Hin.
    unfold count_ge in Hin. simpl in Hin. lia.
Qed.

Lemma most_active_is_maximal_witness :
  db_ok sample_db = true /\
  most_active_rows ["2024-05-01"] sample_db
  = (Some "6В", 2%nat) :: [(Some "6Г", 1%nat); (None, 1%nat)] /\
  "6В" <> ""%string /\
  top_class_line (most_active_rows ["2024-05-01"] sample_db)
  = "Самый активный класс за 7 дней: *6В* (отметок: *2*)".
Proof.
  split; [reflexivity |]. split; [reflexivity |].
  split; [discriminate |].
  destruct (most_active_is_maximal ["2024-05-01"] sample_db "6В" 2
              [(Some "6Г", 1%nat); (None, 1%nat)] eq_refl eq_refl)
    as [H _]; [discriminate |].
  exact H.
Defined.

Lemma all_some_map_length {A B : Type} (f : A -> option B) (l : list A)
    (r : list B) :
  all_some (map f l) = Some r -> List.length r = List.length l.
Proof.
  revert r. induction l as [| a l IH]; simpl; intros r H.
  - now injection H as <-.
  - destruct (f a); [| discriminate].
    destruct (all_some (map f l)); [| discriminate].
    injection H as <-. simpl. f_equal. now apply IH.
Qed.

(** X18.  The day text [cmd_checkin] and [evening_ping] put on today's
    keyboard is the last of the seven days of the school window computed on
    the same day: a habit marked today counts towards this week's most
    active class. *)
Theorem today_is_in_window (today : Z) :
  7 <= today <= Calendar.MAXORDINAL ->
  exists days,
    days_list today = Some days /\
    List.length days = 7%nat /\
    last days ""%string = today_str today /\
    str_in (today_str today) days = true.
Proof.
  intros Hr. eexists. split; [now apply days_list_in_range |].
  unfold trailing_week. cbn [map List.length last].
  split; [reflexivity |]. split; [reflexivity |].
  apply str_in_In. unfold today_str. simpl. tauto.
Qed.

Lemma today_is_in_window_witness :
  7 <= 739013 <= Calendar.MAXORDINAL /\
  exists days,
    days_list 739013 = Some days /\
    str_in (today_str 739013) days = true.
Proof.
  assert (7 <= 739013 <= Calendar.MAXORDINAL) as Hr
      by (unfold Calendar.MAXORDINAL; lia).
  split; [exact Hr |].
  destruct (today_is_in_window 739013 Hr) as (days & Hd & _ & _ & Hin).
  exists days. split; assumption.
Defined.

(** ** Keyboards and callback data *)

Lemma concat_map_singleton {A B : Type} (f : A -> B) (l : list A) :
  List.concat (map (fun x => [f x]) l) = map f l.
Proof.
  induction l as [| a l IH]; simpl; [reflexivity | now rewrite IH].
Qed.

(** X19.  Every button of the habit keyboard does what it shows.  The last
    one carries ["done:"] and the day; each other one belongs to a habit of
    [HABITS], is ticked exactly when that habit is marked for the user and
    day, and its callback data, given to [cb_toggle], toggles that habit on
    that day. *)
Theorem habit_buttons_toggle_their_habit (who : from_user) (day : string)
    (db : database) (b : button) :
  no_colon day = true ->
  In b (buttons (habits_kb (from_id who) day db)) ->
  b = mk_button "📌 Готово" ("done:" ++ day) \/
  exists key label,
    In (key, label) HABITS /\
    btn_text b
    = (if has_mark (from_id who) day key db then "✅ " else "☐ ") ++ label /\
    String.prefix "toggle:" (callback_data b) = true /\
    exists acts,
      cb_toggle who (callback_data b) db
      = Some (fst (toggle_habit (from_id who) day key db), acts).
Proof.
  intros Hday. unfold buttons, habits_kb.
  rewrite concat_app,
    (concat_map_singleton
       (fun kl => mk_button
                    ((if str_in (fst kl)
                            (get_user_day_habits (from_id who) day db)
                      then "✅ " else "☐ ") ++ snd kl)
                    ("toggle:" ++ day ++ ":" ++ fst kl))).
  rewrite in_app_iff. intros [Hin | Hin].
  - right. apply in_map_iff in Hin as [[key label] [<- Hin]].
    exists key, label. cbn [fst snd btn_text callback_data].
    rewrite day_habits_has_mark.
    split; [exact Hin |]. split; [reflexivity |].
    split; [apply (prefix_app "toggle:") |].
    rewrite cb_toggle_data by exact Hday. cbv zeta. now eexists.
  - left. simpl in Hin. destruct Hin as [<- | []]. reflexivity.
Qed.

Lemma habit_buttons_toggle_their_habit_witness :
  no_colon "2024-05-01" = true /\
  In (mk_button "✅ 🥤 Не пью из одноразового стаканчика"
        "toggle:2024-05-01:no_cup")
     (buttons (habits_kb 1 "2024-05-01" sample_db)) /\
  exists acts,
    cb_toggle (mk_from 1 None None) "toggle:2024-05-01:no_cup" sample_db
    = Some (fst (toggle_habit 1 "2024-05-01" "no_cup" sample_db), acts).
Proof.
  split; [reflexivity |].
  assert (In (mk_button "✅ 🥤 Не пью из одноразового стаканчика"
                "toggle:2024-05-01:no_cup")
             (buttons (habits_kb 1 "2024-05-01" sample_db))) as Hin
      by (cbn; tauto).
  split; [exact Hin |].
  destruct (habit_buttons_toggle_their_habit (mk_from 1 None None)
              "2024-05-01" sample_db _ eq_refl Hin)
    as [Hdone | (key & label & _ & _ & _ & acts & _)]; [discriminate |].
  eexists. reflexivity.
Defined.










(** ** Commands and menu buttons *)

Lemma upsert_sender_frame (now : string) (who : from_user) (db : database) :
  (forall v, get_user_class v (upsert_sender now who db)
             = get_user_class v db) /\
  checkins (upsert_sender now who db) = checkins db /\
  has_user (from_id who) (users (upsert_sender now who db)) = true.
Proof.
  unfold upsert_sender. split; [| split; [| apply has_user_upsert]].
  - intros v. unfold upsert_user, get_user_class.
    destruct (has_user (from_id who) (users db)) eqn:E; simpl.
    + rewrite find_map_keeps_id by (intros; apply rename_user_id).
      destruct (find _ (users db)); simpl; [apply rename_user_class | trivial].
    + rewrite find_insert_user by exact E. simpl.
      destruct (from_id who =? v) eqn:F; [| reflexivity].
      apply Z.eqb_eq in F. subst v. now rewrite find_has_user.
  - unfold upsert_user. now destruct (has_user _ _).
Qed.

Lemma habits_kb_same_marks (uid : Z) (day : string) (db db' : database) :
  checkins db' = checkins db ->
  habits_kb uid day db' = habits_kb uid day db.
Proof.
  intros E. unfold habits_kb, get_user_day_habits. now rewrite E.
Qed.

(** X21.  [cmd_start] registers the sender and changes nothing else: every
    class and every check-in is as before.  Its answer depends on the class
    the sender had before the call: the class keyboard when there was none,
    the main menu otherwise. *)
Theorem cmd_start_registers (now : string) (who : from_user) (db : database) :
  let r := cmd_start now who db in
  has_user (from_id who) (users (fst r)) = true /\
  (forall v, get_user_class v (fst r) = get_user_class v db) /\
  checkins (fst r) = checkins db /\
  snd r = if truthy (get_user_class (from_id who) db)
          then [Answer start_known_text false main_menu_kb]
          else [Answer start_new_text false class_pick_kb].
Proof.
  cbv zeta. unfold cmd_start.
  destruct (upsert_sender_frame now who db) as (Hc & Hm & Hu).
  rewrite Hc.
  destruct (truthy (get_user_class (from_id who) db)); simpl; auto.
Qed.

(** X22.  [cmd_checkin] registers the sender and changes no class and no
    check-in.  A sender without a class is asked to pick one and gets no
    habit keyboard; a sender with a class gets today's keyboard, ticked
    from the check-ins stored before the call. *)
Theorem cmd_checkin_asks_or_shows (now : string) (today : Z)
    (who : from_user) (db : database) :
  let r := cmd_checkin now today who db in
  has_user (from_id who) (users (fst r)) = true /\
  (forall v, get_user_class v (fst r) = get_user_class v db) /\
  checkins (fst r) = checkins db /\
  snd r = if truthy (get_user_class (from_id who) db)
          then [ Answer ("Отметьте эко-действия за сегодня ("
                         ++ today_str today ++ "):")
                   false (habits_kb (from_id who) (today_str today) db) ]
          else pick_class_first.
Proof.
  cbv zeta. unfold cmd_checkin.
  destruct (upsert_sender_frame now who db) as (Hc & Hm & Hu).
  rewrite Hc.
  destruct (truthy (get_user_class (from_id who) db)); simpl; auto.
  repeat split; auto. now rewrite (habits_kb_same_marks _ _ db).
Qed.

Lemma after_message_frame (ctx : context) (u : update) (db : database) :
  (forall data, u <> Callback data) ->
  (forall v, get_user_class v (after ctx u db) = get_user_class v db) /\
  checkins (after ctx u db) = checkins db.
Proof.
  intros Hmsg.
  destruct (upsert_sender_frame (ctx_now ctx) (ctx_from ctx) db)
    as (Hc & Hm & _).
  unfold after, dispatch. destruct u as [name | t | data].
  - repeat (match goal with
            | |- context [if ?b then _ else _] => destruct b
            end);
      unfold handled, cmd_start, cmd_setclass, cmd_checkin, cmd_stats;
      cbn [fst snd];
      repeat (match goal with
              | |- context [if ?b then _ else _] => destruct b
              end); cbn [fst snd]; auto.
  - repeat (match goal with
            | |- context [if ?b then _ else _] => destruct b
            end);
      unfold handled, read_only, cmd_checkin; cbn [fst snd];
      repeat (match goal with
              | |- context [if ?b then _ else _] => destruct b
              | |- context [send_school_stats ?t ?d] =>
                  destruct (send_school_stats t d)
              end); cbn [fst snd]; auto.
  - now contradiction (Hmsg data).
Qed.

(** X23.  No command and no menu button changes a class or a check-in:
    whatever the message, every class reads back as before and the
    check-ins are the same.  The statistics buttons of the menu do not
    even register the sender: they leave the database as it is. *)
Theorem messages_keep_classes_and_marks (ctx : context) (db : database) :
  (forall name v,
      get_user_class v (after ctx (Command name) db) = get_user_class v db) /\
  (forall name,
      checkins (after ctx (Command name) db) = checkins db) /\
  (forall t v,
      get_user_class v (after ctx (Text t) db) = get_user_class v db) /\
  (forall t, checkins (after ctx (Text t) db) = checkins db) /\
  (forall t, t <> "✅ Отметить сегодня"%string ->
             after ctx (Text t) db = db).
Proof.
  split; [| split; [| split; [| split]]].
  - intros name. apply after_message_frame. discriminate.
  - intros name. apply after_message_frame. discriminate.
  - intros t. apply after_message_frame. discriminate.
  - intros t. apply after_message_frame. discriminate.
  - intros t Hne. apply String.eqb_neq in Hne. unfold after, dispatch.
    rewrite Hne.
    repeat (match goal with
            | |- context [if ?b then _ else _] => destruct b
            end); try reflexivity.
    unfold read_only. now destruct (send_school_stats _ _).
Qed.

(** ** Every database the bot can reach *)

Lemma class_known_rename (uid : Z) (un fn : option string) (r : user_row) :
  class_known (rename_user uid un fn r) = class_known r.
Proof. unfold class_known. now rewrite rename_user_class. Qed.

Lemma upsert_sender_classes_ok (now : string) (who : from_user)
    (db : database) :
  classes_ok db = true -> classes_ok (upsert_sender now who db) = true.
Proof.
  unfold classes_ok, upsert_sender, upsert_user. intros Hok.
  destruct (has_user (from_id who) (users db)); simpl.
  - rewrite forallb_forall in *. intros r Hin.
    apply in_map_iff in Hin as [r0 [<- Hin]].
    rewrite class_known_rename. now apply Hok.
  - rewrite forallb_forall in *. intros r Hin.
    apply insert_user_In in Hin as [-> | Hin]; [reflexivity | now apply Hok].
Qed.

Lemma set_user_class_classes_ok (uid : Z) (cls : string) (db : database) :
  str_in cls CLASSES = true ->
  classes_ok db = true -> classes_ok (set_user_class uid cls db) = true.
Proof.
  unfold classes_ok, set_user_class. intros Hcls Hok. simpl.
  rewrite forallb_forall in *. intros r Hin.
  apply in_map_iff in Hin as [r0 [<- Hin]]. unfold reclass_user.
  destruct (user_id r0 =? uid); [exact Hcls | now apply Hok].
Qed.

Lemma after_keeps_invariants (ctx : context) (u : update) (db : database) :
  db_ok db = true /\ classes_ok db = true ->
  db_ok (after ctx u db) = true /\ classes_ok (after ctx u db) = true.
Proof.
  intros [Hok Hcl].
  assert (db_ok (upsert_sender (ctx_now ctx) (ctx_from ctx) db) = true
          /\ classes_ok (upsert_sender (ctx_now ctx) (ctx_from ctx) db) = true)
    as Hup.
  { split; [now apply upsert_user_ok | now apply upsert_sender_classes_ok]. }
  unfold after, dispatch. destruct u as [name | t | data].
  - repeat (match goal with
            | |- context [if ?b then _ else _] => destruct b
            end);
      unfold handled, cmd_start, cmd_setclass, cmd_checkin, cmd_stats;
      cbn [fst snd];
      repeat (match goal with
              | |- context [if ?b then _ else _] => destruct b
              end); cbn [fst snd]; auto.
  - repeat (match goal with
            | |- context [if ?b then _ else _] => destruct b
            end);
      unfold handled, read_only, cmd_checkin; cbn [fst snd];
      repeat (match goal with
              | |- context [if ?b then _ else _] => destruct b
              | |- context [send_school_stats ?t ?d] =>
                  destruct (send_school_stats t d)
              end); cbn [fst snd]; auto.
  - destruct (String.prefix "class:" data).
    { unfold cb_setclass. destruct (split_colon data) as [[a cls] |]; [| auto].
      destruct (str_in cls CLASSES) eqn:E; simpl; [| auto].
      split.
      - now apply set_user_class_ok.
      - now apply set_user_class_classes_ok. }
    destruct (String.prefix "toggle:" data).
    { unfold cb_toggle, toggle_habit.
      destruct (split_colon2 data) as [[[a d] k] |]; simpl; [| auto].
      split; [now apply set_habit_ok |].
      unfold classes_ok. now rewrite set_habit_users. }
    destruct (String.prefix "done:" data); [| auto].
    unfold cb_done. destruct (split_colon data) as [[a d] |]; simpl; auto.
Qed.

Lemma known_class_truthy (u : user_row) :
  class_known u = true ->
  (ungrouped u = true <-> class_name u = None).
Proof.
  unfold class_known, ungrouped, truthy.
  destruct (class_name u) as [c |]; [| easy].
  intros Hin. destruct (c =? "")%string eqn:E; [| easy].
  apply String.eqb_eq in E. subst c. discriminate.
Qed.

(** X24.  Whatever updates arrive, in whatever order and from whomever,
    starting from an empty database: no two users share an id, no check-in
    is stored twice, and every stored class is one of [CLASSES]; so a user
    counts as without a class exactly when the class column is NULL. *)
Theorem reachable_database_invariants (trace : list (context * update)) :
  let db := run trace init_db in
  db_ok db = true /\
  classes_ok db = true /\
  (forall u, In u (users db) ->
             (ungrouped u = true <-> class_name u = None)).
Proof.
  cbv zeta.
  assert (forall db,
             db_ok db = true /\ classes_ok db = true ->
             db_ok (run trace db) = true /\ classes_ok (run trace db) = true)
    as Hrun.
  { induction trace as [| [ctx u] rest IH]; intros db H; [exact H |].
    simpl. apply IH. now apply after_keeps_invariants. }
  destruct (Hrun init_db (conj eq_refl eq_refl)) as [Hok Hcl].
  split; [exact Hok |]. split; [exact Hcl |].
  intros u Hin. apply known_class_truthy.
  unfold classes_ok in Hcl. rewrite forallb_forall in Hcl. now apply Hcl.
Qed.

(** ** The evening reminder without failures *)

Lemma ping_user_shape
    (send_message : Z -> string -> markup -> option string)
    (day_str : string) (db : database) (uid : Z) :
  exists tail,
    ping_user send_message day_str db uid
    = prompt_for day_str db uid :: tail /\
    (tail = [] \/ exists e, tail = [LogWarning uid e]) /\
    ((forall v text kb, send_message v text kb = None) -> tail = []).
Proof.
  unfold ping_user, prompt_for, try_send.
  destruct (truthy (get_user_class uid db)); simpl;
    destruct (send_message uid _ _) as [e |] eqn:E;
    eexists; (split; [reflexivity |]); (split; [eauto |]);
    intros Hnone; try reflexivity; rewrite Hnone in E; discriminate.
Qed.

Lemma prompt_not_warning (day_str : string) (db : database) (uid : Z) :
  is_warning (prompt_for day_str db uid) = false.
Proof. unfold prompt_for. now destruct (truthy _). Qed.

Lemma pings_warnings
    (send_message : Z -> string -> markup -> option string)
    (day_str : string) (db : database) (ids : list Z) :
  let acts := flat_map (ping_user send_message day_str db) ids in
  (forall uid e, In (LogWarning uid e) acts -> In uid ids) /\
  (List.length (filter is_warning acts) <= List.length ids)%nat /\
  List.length acts
  = (List.length ids + List.length (filter is_warning acts))%nat /\
  ((forall uid text kb, send_message uid text kb = None) ->
   acts = map (prompt_for day_str db) ids).
Proof.
  cbv zeta. induction ids as [| uid ids (IH1 & IH2 & IH3 & IH4)].
  - simpl. repeat split; try easy; lia.
  - cbn [flat_map map].
    destruct (ping_user_shape send_message day_str db uid)
      as (tail & -> & Htail & Hnone).
    cbn [app filter]. rewrite prompt_not_warning, filter_app, !length_app.
    cbn [List.length].
    split; [| split; [| split]].
    + intros v e [Hp | Hin].
      * unfold prompt_for in Hp. now destruct (truthy _).
      * apply in_app_iff in Hin as [Hin | Hin]; [| right; eauto].
        destruct Htail as [-> | [e' ->]]; [easy |].
        destruct Hin as [Heq | []]. injection Heq as -> _. now left.
    + destruct Htail as [-> | [e' ->]]; simpl; lia.
    + destruct Htail as [-> | [e' ->]]; simpl; lia.
    + intros Hall. rewrite (Hnone Hall), (IH4 Hall). reflexivity.
Qed.

(** X25.  Warnings of a reminder run name stored users only and there are
    no more of them than users; the run has one request per user plus the
    warnings; and when no send raises it requests exactly the messages owed
    to the users, in table order, and logs nothing. *)
Theorem evening_ping_warnings
    (send_message : Z -> string -> markup -> option string)
    (today : Z) (db : database) :
  let acts := evening_ping send_message today db in
  (forall uid e, In (LogWarning uid e) acts -> In uid (get_all_users db)) /\
  (List.length (filter is_warning acts) <= List.length (users db))%nat /\
  List.length acts
  = (List.length (users db) + List.length (filter is_warning acts))%nat /\
  ((forall uid text kb, send_message uid text kb = None) ->
   acts = map (prompt_for (today_str today) db) (get_all_users db)).
Proof.
  cbv zeta. unfold evening_ping.
  rewrite <- (length_map user_id (users db)).
  apply (pings_warnings send_message (today_str today) db (get_all_users db)).
Qed.

Lemma evening_ping_warnings_witness :
  let send := fun (_ : Z) (_ : string) (_ : markup) => @None string in
  (forall uid text kb, send uid text kb = None) /\
  evening_ping send 739013 sample_db
  = map (prompt_for (today_str 739013) sample_db) (get_all_users sample_db).
Proof.
  cbv zeta. split; [reflexivity |].
  destruct (evening_ping_warnings (fun _ _ _ => None) 739013 sample_db)
    as (_ & _ & _ & H).
  apply H. reflexivity.
Defined.

Lemma messages_keep_classes_and_marks_witness :
  let ctx := mk_context "2024-05-03T07:00:00" 739009 (mk_from 9 None None) in
  "📊 Моя статистика"%string <> "✅ Отметить сегодня"%string /\
  after ctx (Text "📊 Моя статистика") sample_db = sample_db /\
  checkins (after ctx (Command "start") sample_db) = checkins sample_db.
Proof.
  cbv zeta.
  assert ("📊 Моя статистика"%string <> "✅ Отметить сегодня"%string) as Hne
      by discriminate.
  destruct (messages_keep_classes_and_marks
              (mk_context "2024-05-03T07:00:00" 739009 (mk_from 9 None None))
              sample_db) as (_ & Hc & _ & _ & Hsame).
  split; [exact Hne |]. split; [exact (Hsame _ Hne) | exact (Hc "start"%string)].
Defined.

Lemma reachable_database_invariants_witness :
  let ctx := mk_context "2024-05-03T07:00:00" 739009 (mk_from 5 None None) in
  let trace := [ (ctx, Command "start"); (ctx, Callback "class:6Г");
                 (ctx, Callback "toggle:2024-05-03:no_bag");
                 (ctx, Callback "class:9Я") ] in
  users (run trace init_db)
  = [mk_user 5 None None (Some "6Г") "2024-05-03T07:00:00"] /\
  db_ok (run trace init_db) = true /\
  forall u, In u (users (run trace init_db)) ->
            (ungrouped u = true <-> class_name u = None).
Proof.
  cbv zeta. split; [reflexivity |].
  destruct (reachable_database_invariants
              [ (mk_context "2024-05-03T07:00:00" 739009 (mk_from 5 None None),
                 Command "start");
                (mk_context "2024-05-03T07:00:00" 739009 (mk_from 5 None None),
                 Callback "class:6Г");
                (mk_context "2024-05-03T07:00:00" 739009 (mk_from 5 None None),
                 Callback "toggle:2024-05-03:no_bag");
                (mk_context "2024-05-03T07:00:00" 739009 (mk_from 5 None None),
                 Callback "class:9Я") ]) as (Hok & _ & Hu).
  split; [exact Hok | exact Hu].
Defined.

(** ** Labels *)

Lemma label_in_missing (key : string) (habits : list (string * string)) :
  ~ In key (map fst habits) -> label_in key habits = key.
Proof.
  induction habits as [| [k lbl] habits IH]; simpl; intros Hout;
    [reflexivity |].
  destruct (k =? key)%string eqn:E.
  - apply String.eqb_eq in E. contradiction Hout. now left.
  - apply IH. intros Hin. apply Hout. now right.
Qed.

Lemma label_in_found (key lbl : string) (habits : list (string * string)) :
  NoDup (map fst habits) -> In (key, lbl) habits ->
  label_in key habits = lbl.
Proof.
  induction habits as [| [k l] habits IH]; simpl; intros Hnd Hin; [easy |].
  apply NoDup_cons_iff in Hnd as [Hk Hnd].
  destruct Hin as [E | Hin].
  - injection E as -> ->. now rewrite String.eqb_refl.
  - destruct (k =? key)%string eqn:E; [| now apply IH].
    apply String.eqb_eq in E. subst k. contradiction Hk.
    apply in_map_iff. now exists (key, lbl).
Qed.

Lemma HABITS_keys_NoDup : NoDup (map fst HABITS).
Proof.
  simpl.
  repeat (constructor;
          [ simpl; intros H;
            repeat (destruct H as [H | H]; [discriminate |]); exact H |]).
  constructor.
Qed.

(** X26.  [habit_label] gives a key of [HABITS] its label and returns any
    other key unchanged, so a check-in stored under a key outside the list
    ([cb_toggle] accepts any key) is shown under that key. *)
Theorem habit_label_lookup (key : string) :
  (forall label, In (key, label) HABITS -> habit_label key = label) /\
  (~ In key (map fst HABITS) -> habit_label key = key).
Proof.
  split.
  - intros label Hin. apply label_in_found; [apply HABITS_keys_NoDup | exact Hin].
  - apply label_in_missing.
Qed.

Lemma habit_label_lookup_witness :
  ~ In "recycle"%string (map fst HABITS) /\
  habit_label "recycle" = "recycle"%string /\
  habit_label "no_bag" = "🛍️ Не использую пластиковый пакет"%string.
Proof.
  assert (~ In "recycle"%string (map fst HABITS)) as Hout.
  { simpl. intros H.
    repeat (destruct H as [H | H]; [discriminate |]). exact H. }
  destruct (habit_label_lookup "recycle") as [_ Hmiss].
  destruct (habit_label_lookup "no_bag") as [Hfound _].
  split; [exact Hout |]. split; [exact (Hmiss Hout) |].
  apply Hfound. simpl. tauto.
Defined.
